(** * jsonschema._types: the type-checker registry

    A shallow embedding of [jsonschema/_types.py]: the built-in type
    predicates, the frozen [TypeChecker] class with its four update methods,
    and the two module-level presets.

    Python objects live in a store and are named by locations, so that
    "the receiver is left alone" is a statement about the store and not a
    triviality.  [pyrsistent] maps are immutable and are therefore carried
    by value; the only mutable object the module creates is the evolver
    that [remove_many] works on. *)

From Stdlib Require Import ZArith.
From Stdlib Require Import Floats.SpecFloat.
From stdpp Require Import gmap strings list fin_maps.

(** ** Python values and classes *)

(** The classes the predicates test against, together with the abstract
    base classes of [numbers] and [collections.abc] that matter here. *)
Inductive pyclass : Type :=
| c_object
| c_NoneType
| c_bool
| c_int
| c_float
| c_str
| c_list
| c_tuple
| c_dict
| c_Number
| c_Sequence
| c_Mapping.

#[global] Instance pyclass_eq_dec : EqDecision pyclass.
Proof. solve_decision. Defined.

(** Instances handed to a type check. *)
#[warnings="-register-all"]
Inductive value : Type :=
| VNone
| VBool (b : bool)
| VInt (n : Z)
| VFloat (x : spec_float)
| VStr (s : string)
| VList (items : list value)
| VTuple (items : list value)
| VDict (items : list (string * value)).

(** [type(instance)]. *)
Definition type_of (instance : value) : pyclass :=
  match instance with
  | VNone => c_NoneType
  | VBool _ => c_bool
  | VInt _ => c_int
  | VFloat _ => c_float
  | VStr _ => c_str
  | VList _ => c_list
  | VTuple _ => c_tuple
  | VDict _ => c_dict
  end.

(** Every class a class is a subclass of: its method resolution order
    followed by the abstract base classes it is registered with.  [bool]
    inherits from [int], and [int] and [float] are registered numbers. *)
Definition superclasses (c : pyclass) : list pyclass :=
  match c with
  | c_object => [c_object]
  | c_NoneType => [c_NoneType; c_object]
  | c_bool => [c_bool; c_int; c_object; c_Number]
  | c_int => [c_int; c_object; c_Number]
  | c_float => [c_float; c_object; c_Number]
  | c_str => [c_str; c_object; c_Sequence]
  | c_list => [c_list; c_object; c_Sequence]
  | c_tuple => [c_tuple; c_object; c_Sequence]
  | c_dict => [c_dict; c_object; c_Mapping]
  | c_Number => [c_Number; c_object]
  | c_Sequence => [c_Sequence; c_object]
  | c_Mapping => [c_Mapping; c_object]
  end.

Definition issubclass (c d : pyclass) : bool :=
  bool_decide (d ∈ superclasses c).

(** [isinstance(instance, cls)] for one class. *)
Definition isinstance (instance : value) (cls : pyclass) : bool :=
  issubclass (type_of instance) cls.

(** [isinstance(instance, (cls1, cls2, ...))] for a tuple of classes. *)
Definition isinstance_any (instance : value) (classes : list pyclass) : bool :=
  existsb (isinstance instance) classes.

(** ** Function objects, exceptions and results *)

(** The callables a registry can hold: the eight functions of the module
    and callables supplied by a caller, told apart by a number. *)
Inductive callable : Type :=
| fn_is_array
| fn_is_bool
| fn_is_integer
| fn_is_null
| fn_is_number
| fn_is_object
| fn_is_string
| fn_is_any
| fn_user (k : nat).

#[global] Instance callable_eq_dec : EqDecision callable.
Proof. solve_decision. Defined.

(** The attributes of one [TypeChecker] instance: a [pyrsistent.pmap] from
    type names to callables. *)
Record TypeChecker : Type := { _type_checkers : gmap string callable }.

Definition loc : Type := nat.

Inductive exn : Type :=
| KeyError (key : string)
| UndefinedTypeCheck (type : string)
| AttributeError (obj : loc)
| UserError (tag : string).

Inductive result (A : Type) : Type :=
| Ok (a : A)
| Raise (e : exn).

Arguments Ok {A} a.
Arguments Raise {A} e.

(** ** The store *)

Inductive object : Type :=
| TypeCheckerObject (checker : TypeChecker)
| EvolverObject (working : gmap string callable).

Abbreviation store := (list object).

(** Computations that read and write the store and may raise. *)
Definition M (A : Type) : Type := store -> result A * store.

Definition ret {A} (a : A) : M A := fun s => (Ok a, s).

Definition raise {A} (e : exn) : M A := fun s => (Raise e, s).

Definition bind {A B} (m : M A) (k : A -> M B) : M B :=
  fun s =>
    match m s with
    | (Ok a, s') => k a s'
    | (Raise e, s') => (Raise e, s')
    end.

Notation "'let*' x ':=' m 'in' k" := (bind m (fun x => k))
  (at level 10, x pattern, m at level 100, k at level 200,
   format "'let*'  x  ':='  m  'in' '//' k").

(** [try: m except: handler]. *)
Definition try_except {A} (m : M A) (handler : exn -> M A) : M A :=
  fun s =>
    match m s with
    | (Ok a, s') => (Ok a, s')
    | (Raise e, s') => handler e s'
    end.

(** [for x in xs: body(x)]. *)
Fixpoint for_each {A} (xs : list A) (body : A -> M unit) : M unit :=
  match xs with
  | [] => ret tt
  | x :: xs' => let* _ := body x in for_each xs' body
  end.

(** Allocation of a fresh object. *)
Definition alloc (o : object) : M loc :=
  fun s => (Ok (length s), s ++ [o]).

(** Outcome and final store of a computation. *)
Definition outcome {A} (m : M A) (s : store) : result A := fst (m s).
Definition final {A} (m : M A) (s : store) : store := snd (m s).

(** ** pyrsistent maps and evolvers *)

(** [pyrsistent.pmap(initial)]. *)
Definition pmap (initial : gmap string callable) : gmap string callable :=
  initial.

(** [m[key]]. *)
Definition pmap_getitem (m : gmap string callable) (key : string) : M callable :=
  match m !! key with
  | Some fn => ret fn
  | None => raise (KeyError key)
  end.

(** [m.update(other)]: the entries of [other] win. *)
Definition pmap_update (m other : gmap string callable) : gmap string callable :=
  other ∪ m.

(** [m.evolver()]: a fresh mutable view that starts out as [m]. *)
Definition pmap_evolver (m : gmap string callable) : M loc :=
  alloc (EvolverObject m).

(** [del evolver[key]]. *)
Definition evolver_delitem (evolver : loc) (key : string) : M unit :=
  fun s =>
    match s !! evolver with
    | Some (EvolverObject working) =>
        match working !! key with
        | Some _ => (Ok tt, <[evolver := EvolverObject (delete key working)]> s)
        | None => (Raise (KeyError key), s)
        end
    | _ => (Raise (AttributeError evolver), s)
    end.

(** [evolver.persistent()]. *)
Definition evolver_persistent (evolver : loc) : M (gmap string callable) :=
  fun s =>
    match s !! evolver with
    | Some (EvolverObject working) => (Ok working, s)
    | _ => (Raise (AttributeError evolver), s)
    end.

(** [dict(definitions)]: a copy with the same entries. *)
Definition dict (definitions : gmap string callable) : gmap string callable :=
  definitions.

(** ** The attrs class *)

(** [TypeChecker(type_checkers)]: the converter turns the argument into a
    [pmap] and a new frozen instance is allocated. *)
Definition new_TypeChecker (type_checkers : gmap string callable) : M loc :=
  alloc (TypeCheckerObject {| _type_checkers := pmap type_checkers |}).

(** Reading the instance behind [self]. *)
Definition deref (self : loc) : M TypeChecker :=
  fun s =>
    match s !! self with
    | Some (TypeCheckerObject checker) => (Ok checker, s)
    | _ => (Raise (AttributeError self), s)
    end.

(** [self._type_checkers]. *)
Definition getattr_type_checkers (self : loc) : M (gmap string callable) :=
  let* checker := deref self in ret (_type_checkers checker).

(** [attr.evolve(self, type_checkers=...)]: a new instance of the class of
    [self] built from the changed attribute. *)
Definition evolve (self : loc) (type_checkers : gmap string callable) : M loc :=
  let* _ := deref self in new_TypeChecker type_checkers.

(** What the module takes from its surroundings: the two tuples of classes
    of [jsonschema.compat], and the bodies of the callables supplied by
    callers.  A callable sees the checker it is handed and the instance,
    and returns or raises. *)
Class Environment : Type := {
  int_types : list pyclass;
  str_types : list pyclass;
  user_code : nat -> TypeChecker -> value -> result bool
}.

Section TypeCheckers.

Context {env : Environment}.

(** *** The built-in predicates *)

Definition is_array (checker : TypeChecker) (instance : value) : bool :=
  isinstance instance c_list.

Definition is_bool (checker : TypeChecker) (instance : value) : bool :=
  isinstance instance c_bool.

Definition is_integer (checker : TypeChecker) (instance : value) : bool :=
  if isinstance instance c_bool then false
  else isinstance_any instance int_types.

Definition is_null (checker : TypeChecker) (instance : value) : bool :=
  match instance with
  | VNone => true
  | _ => false
  end.

Definition is_number (checker : TypeChecker) (instance : value) : bool :=
  if isinstance instance c_bool then false
  else isinstance instance c_Number.

Definition is_object (checker : TypeChecker) (instance : value) : bool :=
  isinstance instance c_dict.

Definition is_string (checker : TypeChecker) (instance : value) : bool :=
  isinstance_any instance str_types.

Definition is_any (checker : TypeChecker) (instance : value) : bool :=
  true.

(** Applying a function object to [(checker, instance)]. *)
Definition apply_callable (fn : callable) (checker : TypeChecker)
    (instance : value) : result bool :=
  match fn with
  | fn_is_array => Ok (is_array checker instance)
  | fn_is_bool => Ok (is_bool checker instance)
  | fn_is_integer => Ok (is_integer checker instance)
  | fn_is_null => Ok (is_null checker instance)
  | fn_is_number => Ok (is_number checker instance)
  | fn_is_object => Ok (is_object checker instance)
  | fn_is_string => Ok (is_string checker instance)
  | fn_is_any => Ok (is_any checker instance)
  | fn_user k => user_code k checker instance
  end.

(** [fn(self, instance)]. *)
Definition call (fn : callable) (self : loc) (instance : value) : M bool :=
  let* checker := deref self in
  match apply_callable fn checker instance with
  | Ok b => ret b
  | Raise e => raise e
  end.

(** *** The methods of [TypeChecker] *)

Definition is_type (self : loc) (instance : value) (type : string) : M bool :=
  let* type_checkers := getattr_type_checkers self in
  let* fn :=
    try_except (pmap_getitem type_checkers type)
      (fun e =>
         match e with
         | KeyError _ => raise (UndefinedTypeCheck type)
         | _ => raise e
         end) in
  call fn self instance.

Definition redefine_many (self : loc) (definitions : gmap string callable)
    : M loc :=
  let definitions := dict definitions in
  let* current := getattr_type_checkers self in
  let type_checkers := pmap_update current definitions in
  evolve self type_checkers.

Definition redefine (self : loc) (type : string) (fn : callable) : M loc :=
  redefine_many self {[ type := fn ]}.

Definition remove_many (self : loc) (types : list string) : M loc :=
  let* current := getattr_type_checkers self in
  let* evolver := pmap_evolver current in
  let* _ :=
    for_each types (fun type_ =>
      try_except (evolver_delitem evolver type_)
        (fun e =>
           match e with
           | KeyError _ => raise (UndefinedTypeCheck type_)
           | _ => raise e
           end)) in
  let* type_checkers := evolver_persistent evolver in
  evolve self type_checkers.

Definition remove (self : loc) (type : string) : M loc :=
  remove_many self [type].

End TypeCheckers.

(** ** The module-level presets *)

Definition draft3_definitions : gmap string callable :=
  list_to_map
    [ ("any", fn_is_any);
      ("array", fn_is_array);
      ("boolean", fn_is_bool);
      ("integer", fn_is_integer);
      ("object", fn_is_object);
      ("null", fn_is_null);
      ("number", fn_is_number);
      ("string", fn_is_string) ].

(** Running the two assignments at the end of the module; the result names
    [draft3_type_checker] and [draft4_type_checker]. *)
Definition module_init : M (loc * loc) :=
  let* draft3_type_checker := new_TypeChecker draft3_definitions in
  let* draft4_type_checker := remove draft3_type_checker "any" in
  ret (draft3_type_checker, draft4_type_checker).

Definition module_store : store := final module_init [].
Definition draft3_type_checker : loc := 0.
Definition draft4_type_checker : loc := 2.

(** ** Vocabulary for the statements *)

(** The loop of [remove_many], read off the working copy: the name whose
    deletion fails first, if any ... *)
Fixpoint first_failure (working : gmap string callable) (types : list string)
    : option string :=
  match types with
  | [] => None
  | type_ :: rest =>
      match working !! type_ with
      | Some _ => first_failure (delete type_ working) rest
      | None => Some type_
      end
  end.

(** ... and the working copy when the loop stops. *)
Fixpoint working_after (working : gmap string callable) (types : list string)
    : gmap string callable :=
  match types with
  | [] => working
  | type_ :: rest =>
      match working !! type_ with
      | Some _ => working_after (delete type_ working) rest
      | None => working
      end
  end.

(** [failing] is the first name of [types], in iteration order, that the
    mapping [m] lacks or that already occurred earlier in [types]. *)
Definition first_absent_or_repeated (m : gmap string callable)
    (types : list string) (failing : string) : Prop :=
  ∃ before after,
    types = before ++ failing :: after
    ∧ NoDup before
    ∧ (∀ x, x ∈ before → is_Some (m !! x))
    ∧ (m !! failing = None ∨ failing ∈ before).

(** A computation keeps every object of the store it starts from. *)
Definition preserves_store {A} (m : M A) (s : store) : Prop :=
  ∀ l o, s !! l = Some o → final m s !! l = Some o.

(** A computation brings no registry into being. *)
Definition no_new_registry {A} (m : M A) (s : store) : Prop :=
  ∀ l checker,
    final m s !! l = Some (TypeCheckerObject checker) →
    s !! l = Some (TypeCheckerObject checker).

(** The contract on callables: they return a boolean and never raise. *)
Definition total_predicates (env : Environment) : Prop :=
  ∀ k checker instance, ∃ b, user_code k checker instance = Ok b.

(** The functions of the module, as opposed to callables of callers. *)
Definition is_builtin (fn : callable) : bool :=
  match fn with
  | fn_user _ => false
  | _ => true
  end.

(** The membership rule that the specification gives for "array", in its
    own words: a sequence container, not a mapping or a string. *)
Definition spec_is_array (instance : value) : bool :=
  isinstance instance c_Sequence
  && negb (isinstance instance c_Mapping)
  && negb (isinstance instance c_str).

(** ** Concrete settings for running the model *)

(** A setting in which [int_types] and [str_types] hold one class each and
    the callables of callers ignore their arguments: callable [k] answers
    whether [k] is even. *)
Definition constant_env : Environment :=
  {| int_types := [c_int];
     str_types := [c_str];
     user_code := fun k _ _ => Ok (Nat.even k) |}.

(** The same setting with callables that consult the checker they are
    handed: [lambda checker, instance: checker.is_type(instance, "foo")]. *)
Definition delegating_env : Environment :=
  {| int_types := [c_int];
     str_types := [c_str];
     user_code := fun _ checker instance =>
       match _type_checkers checker !! "foo" with
       | Some fn => apply_callable (env := constant_env) fn checker instance
       | None => Raise (UndefinedTypeCheck "foo")
       end |}.

(** A store with one registry that maps "foo" to the built-in [is_any] and
    "bar" to a callable of a caller. *)
Definition foo_bar_store : store :=
  final
    (new_TypeChecker (list_to_map [("foo", fn_is_any); ("bar", fn_user 0)]))
    [].

(** ** Further vocabulary *)

(** A caller removing names one at a time:
    [for type_ in types: checker = checker.remove(type_)]. *)
Fixpoint remove_each (self : loc) (types : list string) : M loc :=
  match types with
  | [] => ret self
  | type_ :: rest =>
      let* derived := remove self type_ in remove_each derived rest
  end.

(** [TypeChecker()]: the attribute default [{}] goes through the converter
    like any other argument. *)
Definition default_TypeChecker : M loc := new_TypeChecker ∅.

(** A tuple of classes that has the instances of [cls] and no others. *)
Definition selects_exactly (classes : list pyclass) (cls : pyclass) : Prop :=
  ∀ v, isinstance_any v classes = isinstance v cls.

(** The names of the draft4 preset that fit a value when the tuples of
    [jsonschema.compat] select the integers and the strings. *)
Definition draft4_types_of (instance : value) : list string :=
  match instance with
  | VNone => ["null"]
  | VBool _ => ["boolean"]
  | VInt _ => ["integer"; "number"]
  | VFloat _ => ["number"]
  | VStr _ => ["string"]
  | VList _ => ["array"]
  | VTuple _ => []
  | VDict _ => ["object"]
  end.

(** A setting whose callables all raise a [KeyError] of their own. *)
Definition raising_env : Environment :=
  {| int_types := [c_int];
     str_types := [c_str];
     user_code := fun _ _ _ => Raise (KeyError "inner") |}.

(** A store with one registry that maps "odd" to a callable of a caller. *)
Definition odd_store : store :=
  final (new_TypeChecker {[ "odd" := fn_user 1 ]}) [].

(** * Properties *)

(** ** Running the primitives *)

Lemma bind_run {A B} (m : M A) (k : A -> M B) s a s' :
  m s = (Ok a, s') → bind m k s = k a s'.
Proof. intros H. unfold bind. by rewrite H. Qed.

Lemma deref_run s self checker :
  s !! self = Some (TypeCheckerObject checker) →
  deref self s = (Ok checker, s).
Proof. intros H. unfold deref. by rewrite H. Qed.

Lemma getattr_type_checkers_run s self checker :
  s !! self = Some (TypeCheckerObject checker) →
  getattr_type_checkers self s = (Ok (_type_checkers checker), s).
Proof.
  intros H. unfold getattr_type_checkers.
  by rewrite (bind_run _ _ _ _ _ (deref_run _ _ _ H)).
Qed.

Lemma evolve_run s self checker m :
  s !! self = Some (TypeCheckerObject checker) →
  evolve self m s
  = (Ok (length s), s ++ [TypeCheckerObject {| _type_checkers := m |}]).
Proof.
  intros H. unfold evolve.
  by rewrite (bind_run _ _ _ _ _ (deref_run _ _ _ H)).
Qed.

Lemma lookup_extend (s : store) (extra : list object) l o :
  s !! l = Some o → (s ++ extra) !! l = Some o.
Proof. intros H. rewrite lookup_app_l; [done | by eapply lookup_lt_Some]. Qed.

Lemma lookup_extend_inv (s : store) (o' : object) l checker :
  (s ++ [o']) !! l = Some (TypeCheckerObject checker) →
  (∀ c, o' ≠ TypeCheckerObject c) →
  s !! l = Some (TypeCheckerObject checker).
Proof.
  intros H Hne. destruct (decide (l < length s)) as [Hlt | Hge].
  - by rewrite lookup_app_l in H.
  - rewrite lookup_app_r in H by lia.
    destruct (l - length s) as [| n]; simpl in H.
    + inversion H as [Heq]. by destruct (Hne checker).
    + by destruct n.
Qed.

(** ** The deletion loop, as a function of the working copy *)

Lemma first_failure_None (m : gmap string callable) (types : list string) :
  first_failure m types = None
  ↔ NoDup types ∧ ∀ x, x ∈ types → is_Some (m !! x).
Proof.
  revert m. induction types as [| t rest IH]; intros m; simpl.
  - split; [intros _ | done]. split; [constructor |].
    intros x Hx. by apply elem_of_nil in Hx.
  - destruct (m !! t) as [fn |] eqn:Ht.
    + rewrite IH. split.
      * intros [Hnd Hall]. split.
        -- constructor; [| done]. intros Hin.
           destruct (Hall t Hin) as [fn' Hfn'].
           by rewrite lookup_delete_eq in Hfn'.
        -- intros x Hx. apply elem_of_cons in Hx as [-> | Hx]; [by eexists |].
           destruct (Hall x Hx) as [fn' Hfn'].
           apply lookup_delete_Some in Hfn' as [_ Hfn']. by eexists.
      * intros [Hnd Hall]. apply NoDup_cons in Hnd as [Hnotin Hnd].
        split; [done |]. intros x Hx.
        destruct (Hall x) as [fn' Hfn']; [by apply elem_of_cons; right |].
        exists fn'. apply lookup_delete_Some. split; [| done].
        intros ->. done.
    + split; [done |]. intros [_ Hall].
      destruct (Hall t) as [fn Hfn]; [by apply elem_of_cons; left |].
      congruence.
Qed.

Lemma first_failure_Some (m : gmap string callable) (types : list string) t :
  first_failure m types = Some t → first_absent_or_repeated m types t.
Proof.
  revert m. induction types as [| x rest IH]; intros m; simpl; [done |].
  destruct (m !! x) as [fn |] eqn:Hx.
  - intros H. destruct (IH _ H) as (before & after & -> & Hnd & Hall & Hlast).
    exists (x :: before), after. split; [done |]. split; [| split].
    + constructor; [| done]. intros Hin.
      destruct (Hall x Hin) as [fn' Hfn']. by rewrite lookup_delete_eq in Hfn'.
    + intros y Hy. apply elem_of_cons in Hy as [-> | Hy]; [by eexists |].
      destruct (Hall y Hy) as [fn' Hfn'].
      apply lookup_delete_Some in Hfn' as [_ Hfn']. by eexists.
    + destruct Hlast as [Hnone | Hin].
      * apply lookup_delete_None in Hnone as [-> | Hnone].
        -- right. by apply elem_of_cons; left.
        -- by left.
      * right. by apply elem_of_cons; right.
  - intros [= <-]. exists [], rest. repeat split; [constructor | | by left].
    intros y Hy. by apply elem_of_nil in Hy.
Qed.

Lemma first_failure_at (m : gmap string callable) before t after :
  NoDup before →
  (∀ x, x ∈ before → is_Some (m !! x)) →
  m !! t = None ∨ t ∈ before →
  first_failure m (before ++ t :: after) = Some t.
Proof.
  revert m. induction before as [| x before IH]; intros m Hnd Hall Hlast; simpl.
  - destruct Hlast as [-> | Hin]; [done | by apply elem_of_nil in Hin].
  - apply NoDup_cons in Hnd as [Hnotin Hnd].
    destruct (Hall x) as [fn Hfn]; [by apply elem_of_cons; left |].
    rewrite Hfn. apply IH; [done | |].
    + intros y Hy. destruct (Hall y) as [fn' Hfn']; [by apply elem_of_cons; right |].
      exists fn'. apply lookup_delete_Some. split; [| done]. by intros ->.
    + destruct Hlast as [Hnone | Hin].
      * left. apply lookup_delete_None. by right.
      * apply elem_of_cons in Hin as [-> | Hin]; [| by right].
        left. apply lookup_delete_eq.
Qed.

Lemma working_after_lookup (m : gmap string callable) (types : list string) k :
  first_failure m types = None →
  working_after m types !! k = if decide (k ∈ types) then None else m !! k.
Proof.
  revert m.
  induction types as [| t rest IH]; intros m; cbn [first_failure working_after].
  - intros _. case_decide as Hk; [by apply elem_of_nil in Hk | done].
  - destruct (m !! t) as [fn |] eqn:Ht; [| intros [=]].
    intros H. rewrite (IH _ H).
    destruct (decide (k ∈ rest)) as [Hin | Hnotin].
    + rewrite decide_True; [done | by apply elem_of_cons; right].
    + destruct (decide (k = t)) as [-> | Hne].
      * rewrite decide_True; [apply lookup_delete_eq | by apply elem_of_cons; left].
      * rewrite decide_False; [by apply lookup_delete_ne |].
        intros Hin. by apply elem_of_cons in Hin as [? | ?].
Qed.

(** ** Running the methods *)

Lemma delete_loop_run (types : list string) : ∀ s evolver working,
  s !! evolver = Some (EvolverObject working) →
  for_each types (fun type_ =>
    try_except (evolver_delitem evolver type_)
      (fun e =>
         match e with
         | KeyError _ => raise (UndefinedTypeCheck type_)
         | _ => raise e
         end)) s
  = (match first_failure working types with
     | Some t => Raise (UndefinedTypeCheck t)
     | None => Ok tt
     end,
     <[evolver := EvolverObject (working_after working types)]> s).
Proof.
  induction types as [| t rest IH]; intros s evolver working Hs; simpl.
  - unfold ret. by rewrite list_insert_id.
  - unfold bind, try_except, evolver_delitem. rewrite Hs.
    destruct (working !! t) as [fn |] eqn:Ht.
    + rewrite (IH _ evolver (delete t working)).
      * by rewrite list_insert_insert_eq.
      * apply list_lookup_insert_eq. by eapply lookup_lt_Some.
    + unfold raise. by rewrite list_insert_id.
Qed.

Lemma remove_many_run s self checker types :
  s !! self = Some (TypeCheckerObject checker) →
  remove_many self types s
  = let m := _type_checkers checker in
    let s1 := s ++ [EvolverObject (working_after m types)] in
    match first_failure m types with
    | Some t => (Raise (UndefinedTypeCheck t), s1)
    | None =>
        (Ok (S (length s)),
         s1 ++ [TypeCheckerObject {| _type_checkers := working_after m types |}])
    end.
Proof.
  intros Hs. unfold remove_many.
  rewrite (bind_run _ _ _ _ _ (getattr_type_checkers_run _ _ _ Hs)).
  unfold pmap_evolver, alloc, bind at 1.
  assert (Hev : (s ++ [EvolverObject (_type_checkers checker)]) !! length s
                = Some (EvolverObject (_type_checkers checker))).
  { by rewrite lookup_app_r, Nat.sub_diag. }
  assert (Hins : ∀ o, <[length s := o]> (s ++ [EvolverObject (_type_checkers checker)])
                      = s ++ [o]).
  { intros o. rewrite insert_app_r_alt, Nat.sub_diag by lia. done. }
  unfold bind at 1. rewrite (delete_loop_run _ _ _ _ Hev), Hins. simpl.
  destruct (first_failure (_type_checkers checker) types) as [t |]; [done |].
  unfold bind, evolver_persistent.
  rewrite lookup_app_r, Nat.sub_diag by lia. simpl.
  rewrite (evolve_run _ self checker); [| by apply lookup_extend].
  by rewrite length_app, Nat.add_1_r.
Qed.

Lemma redefine_many_run s self checker definitions :
  s !! self = Some (TypeCheckerObject checker) →
  redefine_many self definitions s
  = (Ok (length s),
     s ++ [TypeCheckerObject
             {| _type_checkers := definitions ∪ _type_checkers checker |}]).
Proof.
  intros Hs. unfold redefine_many.
  rewrite (bind_run _ _ _ _ _ (getattr_type_checkers_run _ _ _ Hs)).
  by rewrite (evolve_run _ _ _ _ Hs).
Qed.

Section Registry.

Context {env : Environment}.

(** A lookup either raises for the name that was asked or hands over
    what the callable gives; the store is only read. *)
Lemma is_type_run s self checker instance type :
  s !! self = Some (TypeCheckerObject checker) →
  is_type self instance type s
  = (match _type_checkers checker !! type with
     | Some fn => apply_callable fn checker instance
     | None => Raise (UndefinedTypeCheck type)
     end, s).
Proof.
  intros Hs. unfold is_type.
  rewrite (bind_run _ _ _ _ _ (getattr_type_checkers_run _ _ _ Hs)).
  unfold bind at 1, try_except, pmap_getitem.
  destruct (_type_checkers checker !! type) as [fn |]; simpl; [| done].
  unfold call. rewrite (bind_run _ _ _ _ _ (deref_run _ _ _ Hs)).
  by destruct (apply_callable fn checker instance).
Qed.

Lemma is_type_outcome s self checker instance type :
  s !! self = Some (TypeCheckerObject checker) →
  outcome (is_type self instance type) s
  = match _type_checkers checker !! type with
    | Some fn => apply_callable fn checker instance
    | None => Raise (UndefinedTypeCheck type)
    end.
Proof. intros Hs. unfold outcome. by rewrite (is_type_run _ _ _ _ _ Hs). Qed.

(** Two stores that hold the same instance behind [self] answer alike. *)
Lemma is_type_same_checker s s' self checker instance type :
  s !! self = Some (TypeCheckerObject checker) →
  s' !! self = Some (TypeCheckerObject checker) →
  outcome (is_type self instance type) s'
  = outcome (is_type self instance type) s.
Proof.
  intros Hs Hs'.
  by rewrite (is_type_outcome _ _ _ _ _ Hs), (is_type_outcome _ _ _ _ _ Hs').
Qed.

Lemma apply_callable_total fn checker instance :
  total_predicates env →
  ∃ b, apply_callable fn checker instance = Ok b.
Proof. intros Htotal. destruct fn; simpl; eauto. Qed.

(** ** Membership tests *)

(** C2. [is_type(value, type_name)] raises [UndefinedTypeCheck(type_name)]
    exactly when [type_name] is missing from the mapping of the registry;
    when the name is there, the call gives what the mapped predicate
    gives on (this registry, value), which is a boolean, and there is no
    other way for it to fail.  The predicates are taken to keep their
    contract of never raising. *)
Theorem is_type_raises_iff_absent s self checker instance type :
  s !! self = Some (TypeCheckerObject checker) →
  total_predicates env →
  (outcome (is_type self instance type) s = Raise (UndefinedTypeCheck type)
   ↔ _type_checkers checker !! type = None)
  ∧ (∀ fn, _type_checkers checker !! type = Some fn →
       outcome (is_type self instance type) s
       = apply_callable fn checker instance
       ∧ ∃ b, outcome (is_type self instance type) s = Ok b)
  ∧ (∀ e, outcome (is_type self instance type) s = Raise e →
       e = UndefinedTypeCheck type)
  ∧ final (is_type self instance type) s = s.
Proof.
  intros Hs Htotal. rewrite (is_type_outcome _ _ _ _ _ Hs).
  unfold final. rewrite (is_type_run _ _ _ _ _ Hs). simpl.
  destruct (_type_checkers checker !! type) as [fn |] eqn:Hfn.
  - destruct (apply_callable_total fn checker instance Htotal) as [b Hb].
    rewrite Hb. split; [done |]. split; [| done].
    intros fn' [= <-]. rewrite Hb. split; [done | by exists b].
  - split; [done |]. split; [done |]. split; [| done].
    by intros e [= <-].
Qed.

(** ** The built-in predicates *)

Lemma isinstance_any_elem instance cls classes :
  cls ∈ classes → isinstance instance cls = true →
  isinstance_any instance classes = true.
Proof.
  intros Hin Hcls. unfold isinstance_any. apply existsb_exists.
  exists cls. split; [by apply list_elem_of_In | done].
Qed.

(** C3. On a registry that holds the built-in predicates for "integer",
    "number" and "boolean", every integer that is not a boolean is both
    an "integer" and a "number", and every boolean is neither, while it
    is a "boolean".  The tuple [int_types] of the compatibility module
    is taken to list the class [int]. *)
Theorem builtin_integer_number_boolean s self checker :
  s !! self = Some (TypeCheckerObject checker) →
  c_int ∈ int_types →
  _type_checkers checker !! "integer" = Some fn_is_integer →
  _type_checkers checker !! "number" = Some fn_is_number →
  _type_checkers checker !! "boolean" = Some fn_is_bool →
  (∀ n, outcome (is_type self (VInt n) "integer") s = Ok true
        ∧ outcome (is_type self (VInt n) "number") s = Ok true)
  ∧ (∀ b, outcome (is_type self (VBool b) "integer") s = Ok false
          ∧ outcome (is_type self (VBool b) "number") s = Ok false
          ∧ outcome (is_type self (VBool b) "boolean") s = Ok true).
Proof.
  intros Hs Hint Hinteger Hnumber Hboolean. split.
  - intros n. rewrite !(is_type_outcome _ _ _ _ _ Hs), Hinteger, Hnumber.
    simpl. split; [| done]. unfold is_integer.
    change (isinstance (VInt n) c_bool) with false. cbv iota.
    by rewrite (isinstance_any_elem (VInt n) c_int int_types).
  - intros b.
    by rewrite !(is_type_outcome _ _ _ _ _ Hs), Hinteger, Hnumber, Hboolean.
Qed.

(** ** Updates and the receiver *)

Lemma redefine_many_preserves s self checker definitions :
  s !! self = Some (TypeCheckerObject checker) →
  preserves_store (redefine_many self definitions) s.
Proof.
  intros Hs l o Hl. unfold final.
  rewrite (redefine_many_run _ _ _ _ Hs). by apply lookup_extend.
Qed.

Lemma remove_many_preserves s self checker types :
  s !! self = Some (TypeCheckerObject checker) →
  preserves_store (remove_many self types) s.
Proof.
  intros Hs l o Hl. unfold final.
  rewrite (remove_many_run _ _ _ _ Hs). cbv zeta.
  destruct (first_failure (_type_checkers checker) types); simpl.
  - by apply lookup_extend.
  - by do 2 apply lookup_extend.
Qed.

Lemma preserved_receiver_answers_alike {A} (m : M A) s self checker :
  s !! self = Some (TypeCheckerObject checker) →
  preserves_store m s →
  ∀ v t, outcome (is_type self v t) (final m s)
         = outcome (is_type self v t) s.
Proof.
  intros Hs Hkeep v t. eapply is_type_same_checker; [done |]. by apply Hkeep.
Qed.

Lemma redefine_run s self checker type fn :
  s !! self = Some (TypeCheckerObject checker) →
  redefine self type fn s
  = (Ok (length s),
     s ++ [TypeCheckerObject
             {| _type_checkers := <[type := fn]> (_type_checkers checker) |}]).
Proof.
  intros Hs. unfold redefine. rewrite (redefine_many_run _ _ _ _ Hs).
  by rewrite insert_union_singleton_l.
Qed.

Lemma lookup_fresh (s : store) (o : object) : (s ++ [o]) !! length s = Some o.
Proof. by rewrite lookup_app_r, Nat.sub_diag. Qed.

(** C4. No update touches its receiver.  Whatever the store held before
    [redefine], [redefine_many], [remove] or [remove_many] ran on [r1] it
    still holds afterwards, so [r1] answers every [is_type] question as
    before, be it with the result of its original predicate or with
    [UndefinedTypeCheck]; the registry [r2] that [redefine] returns is a
    new object, and it alone answers for [name] with [f]. *)
Theorem updates_leave_receiver_unchanged
    s r1 checker name f definitions types :
  s !! r1 = Some (TypeCheckerObject checker) →
  (preserves_store (redefine r1 name f) s
   ∧ preserves_store (redefine_many r1 definitions) s
   ∧ preserves_store (remove r1 name) s
   ∧ preserves_store (remove_many r1 types) s)
  ∧ (∀ v t,
       outcome (is_type r1 v t) (final (redefine r1 name f) s)
       = outcome (is_type r1 v t) s
       ∧ outcome (is_type r1 v t) (final (redefine_many r1 definitions) s)
         = outcome (is_type r1 v t) s
       ∧ outcome (is_type r1 v t) (final (remove r1 name) s)
         = outcome (is_type r1 v t) s
       ∧ outcome (is_type r1 v t) (final (remove_many r1 types) s)
         = outcome (is_type r1 v t) s)
  ∧ ∃ r2,
      outcome (redefine r1 name f) s = Ok r2
      ∧ r2 ≠ r1
      ∧ s !! r2 = None
      ∧ ∀ v,
          outcome (is_type r2 v name) (final (redefine r1 name f) s)
          = apply_callable f
              {| _type_checkers := <[name := f]> (_type_checkers checker) |}
              v.
Proof.
  intros Hs.
  assert (H1 : preserves_store (redefine r1 name f) s)
    by (by eapply redefine_many_preserves).
  assert (H2 : preserves_store (redefine_many r1 definitions) s)
    by (by eapply redefine_many_preserves).
  assert (H3 : preserves_store (remove r1 name) s)
    by (by eapply remove_many_preserves).
  assert (H4 : preserves_store (remove_many r1 types) s)
    by (by eapply remove_many_preserves).
  split; [done |]. split.
  - intros v t. repeat split;
      by eapply preserved_receiver_answers_alike.
  - exists (length s). unfold outcome at 1, final.
    rewrite (redefine_run _ _ _ _ _ Hs). simpl.
    split; [done |]. split; [| split].
    + apply lookup_lt_Some in Hs. lia.
    + by apply lookup_ge_None.
    + intros v. rewrite (is_type_outcome _ _ _ _ _ (lookup_fresh _ _)).
      simpl. by rewrite lookup_insert_eq.
Qed.

(** ** Redefinition *)

Lemma builtin_ignores_checker fn checker checker' instance :
  is_builtin fn = true →
  apply_callable fn checker' instance = apply_callable fn checker instance.
Proof. by destruct fn. Qed.

(** C6, as the code has it.  The registry that [redefine_many] returns
    maps every name of the batch to the predicate supplied for it and
    every other name as the receiver does.  For a name outside the batch,
    [is_type] on the derived registry therefore calls the predicate the
    receiver calls, handing it the derived registry; the outcome is that
    of the receiver whenever this predicate gives the same on both
    registries, which every built-in predicate does. *)
Theorem redefine_many_keeps_other_entries s r checker definitions :
  s !! r = Some (TypeCheckerObject checker) →
  ∃ r2 derived,
    outcome (redefine_many r definitions) s = Ok r2
    ∧ final (redefine_many r definitions) s !! r2
      = Some (TypeCheckerObject derived)
    ∧ (∀ t fn, definitions !! t = Some fn →
         _type_checkers derived !! t = Some fn)
    ∧ (∀ t, definitions !! t = None →
         _type_checkers derived !! t = _type_checkers checker !! t)
    ∧ (∀ t v, definitions !! t = None →
         outcome (is_type r2 v t) (final (redefine_many r definitions) s)
         = match _type_checkers checker !! t with
           | Some fn => apply_callable fn derived v
           | None => Raise (UndefinedTypeCheck t)
           end)
    ∧ (∀ t v, definitions !! t = None →
         (∀ fn, _type_checkers checker !! t = Some fn →
            is_builtin fn = true
            ∨ apply_callable fn derived v = apply_callable fn checker v) →
         outcome (is_type r2 v t) (final (redefine_many r definitions) s)
         = outcome (is_type r v t) s).
Proof.
  intros Hs. eexists (length s), _.
  unfold outcome at 1, final. rewrite (redefine_many_run _ _ _ _ Hs). simpl.
  split; [done |]. split; [apply lookup_fresh |].
  assert (Hin : ∀ t fn, definitions !! t = Some fn →
            (definitions ∪ _type_checkers checker) !! t = Some fn).
  { intros t fn Ht. by apply lookup_union_Some_l. }
  assert (Hout : ∀ t, definitions !! t = None →
            (definitions ∪ _type_checkers checker) !! t
            = _type_checkers checker !! t).
  { intros t Ht. by apply lookup_union_r. }
  split; [done |]. split; [done |]. split.
  - intros t v Ht.
    rewrite (is_type_outcome _ _ _ _ _ (lookup_fresh _ _)). simpl.
    by rewrite (Hout _ Ht).
  - intros t v Ht Hsame.
    rewrite (is_type_outcome _ _ _ _ _ (lookup_fresh _ _)),
      (is_type_outcome _ _ _ _ _ Hs). simpl. rewrite (Hout _ Ht).
    destruct (_type_checkers checker !! t) as [fn |]; [| done].
    destruct (Hsame fn eq_refl) as [Hb | Heq]; [| done].
    by apply builtin_ignores_checker.
Qed.

(** C7. [redefine(t, f)] is [redefine_many({t: f})]: the two calls run
    alike, and on a registry they return a new registry whose mapping is
    that of the receiver with [t] set to [f], whether or not the receiver
    had [t]; neither can raise. *)
Theorem redefine_is_singleton_redefine_many s r checker t f :
  s !! r = Some (TypeCheckerObject checker) →
  redefine r t f s = redefine_many r {[ t := f ]} s
  ∧ ∃ r2,
      outcome (redefine r t f) s = Ok r2
      ∧ outcome (redefine_many r {[ t := f ]}) s = Ok r2
      ∧ final (redefine r t f) s !! r2
        = Some (TypeCheckerObject
                  {| _type_checkers := <[t := f]> (_type_checkers checker) |})
      ∧ final (redefine_many r {[ t := f ]}) s !! r2
        = Some (TypeCheckerObject
                  {| _type_checkers := <[t := f]> (_type_checkers checker) |}).
Proof.
  intros Hs. split; [done |]. exists (length s).
  assert (Hsame : redefine_many r {[ t := f ]} s = redefine r t f s) by done.
  unfold outcome, final. rewrite Hsame, (redefine_run _ _ _ _ _ Hs). simpl.
  repeat split; apply lookup_fresh.
Qed.

(** C9. Redefining twice with the same name and predicate gives a
    registry that answers every [is_type] question as the registry of
    the first redefinition does: the same boolean or the same error. *)
Theorem redefine_idempotent s r checker t f :
  s !! r = Some (TypeCheckerObject checker) →
  ∃ r1 s1 r2 s2,
    redefine r t f s = (Ok r1, s1)
    ∧ redefine r1 t f s1 = (Ok r2, s2)
    ∧ r1 ≠ r2
    ∧ ∀ v n, outcome (is_type r2 v n) s2 = outcome (is_type r1 v n) s2.
Proof.
  intros Hs.
  set (first :=
         TypeCheckerObject
           {| _type_checkers := <[t := f]> (_type_checkers checker) |}).
  pose proof (redefine_run _ _ _ t f Hs) as Hfirst.
  pose proof (redefine_run _ _ _ t f (lookup_fresh s first)) as Hsecond.
  eexists _, _, _, _. split; [exact Hfirst |]. split; [exact Hsecond |].
  split; [rewrite length_app; simpl; lia |].
  intros v n.
  rewrite (is_type_outcome _ _ _ _ _ (lookup_fresh _ _)).
  rewrite (is_type_outcome _ _ _ _ _
             (lookup_extend _ [_] _ _ (lookup_fresh s first))).
  simpl. by rewrite insert_insert_eq.
Qed.

(** ** Removal *)

Lemma remove_many_raises s self checker types t :
  s !! self = Some (TypeCheckerObject checker) →
  first_failure (_type_checkers checker) types = Some t →
  remove_many self types s
  = (Raise (UndefinedTypeCheck t),
     s ++ [EvolverObject (working_after (_type_checkers checker) types)]).
Proof.
  intros Hs Hfail. rewrite (remove_many_run _ _ _ _ Hs). cbv zeta.
  by rewrite Hfail.
Qed.

Lemma failed_removal_no_new_registry s self checker types t :
  s !! self = Some (TypeCheckerObject checker) →
  first_failure (_type_checkers checker) types = Some t →
  no_new_registry (remove_many self types) s.
Proof.
  intros Hs Hfail l c Hl. unfold final in Hl.
  rewrite (remove_many_raises _ _ _ _ _ Hs Hfail) in Hl. simpl in Hl.
  by eapply lookup_extend_inv.
Qed.

(** X17. When the receiver has every name of the collection and none is
    repeated, [remove_many] returns a new registry whose mapping is that of
    the receiver without exactly the names of the collection. *)
Lemma remove_many_returns s self checker types :
  s !! self = Some (TypeCheckerObject checker) →
  NoDup types →
  (∀ x, x ∈ types → is_Some (_type_checkers checker !! x)) →
  ∃ r2 derived,
    outcome (remove_many self types) s = Ok r2
    ∧ s !! r2 = None
    ∧ final (remove_many self types) s !! r2 = Some (TypeCheckerObject derived)
    ∧ ∀ k, _type_checkers derived !! k
           = if decide (k ∈ types) then None
             else _type_checkers checker !! k.
Proof.
  intros Hs Hnd Hall.
  assert (Hnone : first_failure (_type_checkers checker) types = None)
    by (by apply first_failure_None).
  eexists (S (length s)), _. unfold outcome, final.
  rewrite (remove_many_run _ _ _ _ Hs). cbv zeta. rewrite Hnone. simpl.
  split; [done |]. split; [apply lookup_ge_None; lia |]. split.
  - rewrite lookup_app_r; rewrite length_app; simpl; [| lia].
    by replace (S (length s) - (length s + 1)) with 0 by lia.
  - intros k. by apply working_after_lookup.
Qed.

(** C1, as the code has it.  [remove_many] is all-or-nothing: when some
    name of the collection is missing from the mapping of the receiver,
    the call raises [UndefinedTypeCheck], returns no registry and brings
    none into being, and leaves every object of the store, the receiver
    among them, as it was, so the receiver answers as before.  The error
    carries the first name, in iteration order, that the receiver lacks
    or that already occurred earlier in the collection; when no name
    occurs twice, this is the first name the receiver lacks. *)
Theorem remove_many_all_or_nothing s r checker types name :
  s !! r = Some (TypeCheckerObject checker) →
  name ∈ types →
  _type_checkers checker !! name = None →
  ∃ failing,
    outcome (remove_many r types) s = Raise (UndefinedTypeCheck failing)
    ∧ first_absent_or_repeated (_type_checkers checker) types failing
    ∧ (NoDup types → _type_checkers checker !! failing = None)
    ∧ no_new_registry (remove_many r types) s
    ∧ preserves_store (remove_many r types) s
    ∧ ∀ v t, outcome (is_type r v t) (final (remove_many r types) s)
             = outcome (is_type r v t) s.
Proof.
  intros Hs Hin Hnone.
  destruct (first_failure (_type_checkers checker) types) as [failing |]
    eqn:Hfail.
  - exists failing.
    pose proof (first_failure_Some _ _ _ Hfail) as Hfirst.
    split; [| split; [done | split; [| split; [| split]]]].
    + unfold outcome. by rewrite (remove_many_raises _ _ _ _ _ Hs Hfail).
    + intros Hnd.
      destruct Hfirst as (before & after & -> & _ & _ & [Habs | Hrep]);
        [done |].
      apply NoDup_app in Hnd as (_ & Hdisj & _).
      destruct (Hdisj _ Hrep). by apply elem_of_cons; left.
    + by eapply failed_removal_no_new_registry.
    + by eapply remove_many_preserves.
    + eapply preserved_receiver_answers_alike; [done |].
      by eapply remove_many_preserves.
  - apply first_failure_None in Hfail as [_ Hall].
    destruct (Hall _ Hin) as [fn Hfn]. congruence.
Qed.

(** C10, as the code has it.  When the collection names [t] twice,
    [remove_many] raises [UndefinedTypeCheck] and returns no registry,
    even if the receiver has [t].  The error carries the first name whose
    deletion from the working copy fails; this is [t] when the names
    before the second [t] are, apart from the first [t], pairwise
    different, different from [t] and known to the receiver, as in
    [[t, t]]. *)
Theorem remove_many_repeated_name s r checker before between after t :
  s !! r = Some (TypeCheckerObject checker) →
  is_Some (_type_checkers checker !! t) →
  (∃ failing,
     outcome (remove_many r (before ++ t :: between ++ t :: after)) s
     = Raise (UndefinedTypeCheck failing)
     ∧ first_absent_or_repeated (_type_checkers checker)
         (before ++ t :: between ++ t :: after) failing)
  ∧ no_new_registry (remove_many r (before ++ t :: between ++ t :: after)) s
  ∧ preserves_store (remove_many r (before ++ t :: between ++ t :: after)) s
  ∧ (NoDup (before ++ between) →
     t ∉ before ++ between →
     (∀ x, x ∈ before ++ between → is_Some (_type_checkers checker !! x)) →
     outcome (remove_many r (before ++ t :: between ++ t :: after)) s
     = Raise (UndefinedTypeCheck t))
  ∧ outcome (remove_many r [t; t]) s = Raise (UndefinedTypeCheck t).
Proof.
  intros Hs Ht.
  assert (Hat : ∀ pre mid post,
            NoDup (pre ++ mid) → t ∉ pre ++ mid →
            (∀ x, x ∈ pre ++ mid → is_Some (_type_checkers checker !! x)) →
            outcome (remove_many r (pre ++ t :: mid ++ t :: post)) s
            = Raise (UndefinedTypeCheck t)).
  { intros pre mid post Hnd Hnotin Hall. unfold outcome.
    rewrite (remove_many_raises _ _ _ _ t Hs); [done |].
    replace (pre ++ t :: mid ++ t :: post)
      with ((pre ++ t :: mid) ++ t :: post)
      by (by rewrite <- app_assoc).
    apply first_failure_at.
    - rewrite <- Permutation_middle. by constructor.
    - intros x Hx. rewrite <- Permutation_middle in Hx.
      apply elem_of_cons in Hx as [-> | Hx]; [done | by apply Hall].
    - right. apply elem_of_app. right. by apply elem_of_cons; left. }
  destruct (first_failure (_type_checkers checker)
              (before ++ t :: between ++ t :: after)) as [failing |]
    eqn:Hfail.
  - split; [| split; [| split; [| split]]].
    + exists failing. split; [| by apply first_failure_Some].
      unfold outcome. by rewrite (remove_many_raises _ _ _ _ _ Hs Hfail).
    + by eapply failed_removal_no_new_registry.
    + by eapply remove_many_preserves.
    + apply Hat.
    + apply (Hat [] [] []); [constructor | by intros ?%elem_of_nil |].
      by intros x ?%elem_of_nil.
  - apply first_failure_None in Hfail as [Hnd _].
    apply NoDup_app in Hnd as (_ & _ & Hnd).
    apply NoDup_cons in Hnd as [Hnotin _]. destruct Hnotin.
    apply elem_of_app. right. by apply elem_of_cons; left.
Qed.

(** ** The presets *)

Lemma module_store_eq :
  module_store
  = [ TypeCheckerObject {| _type_checkers := draft3_definitions |};
      EvolverObject (delete "any" draft3_definitions);
      TypeCheckerObject
        {| _type_checkers := delete "any" draft3_definitions |} ].
Proof. vm_compute. reflexivity. Qed.

Lemma draft3_lookup :
  module_store !! draft3_type_checker
  = Some (TypeCheckerObject {| _type_checkers := draft3_definitions |}).
Proof. by rewrite module_store_eq. Qed.

Lemma draft4_lookup :
  module_store !! draft4_type_checker
  = Some (TypeCheckerObject
            {| _type_checkers := delete "any" draft3_definitions |}).
Proof. by rewrite module_store_eq. Qed.

Lemma draft3_definitions_builtin t fn :
  draft3_definitions !! t = Some fn → is_builtin fn = true.
Proof.
  intros H. apply elem_of_list_to_map_2 in H.
  repeat (apply elem_of_cons in H as [[= -> ->] | H]; [done |]).
  by apply elem_of_nil in H.
Qed.

(** C5. The draft4 preset is the draft3 preset with "any" removed: it is
    what [remove] returns on draft3, its mapping is that of draft3
    without "any", it raises [UndefinedTypeCheck] for "any" on every
    value, and for every other name and every value it answers as draft3
    does. *)
Theorem draft4_is_draft3_without_any :
  outcome module_init [] = Ok (draft3_type_checker, draft4_type_checker)
  ∧ outcome (remove draft3_type_checker "any")
      (final (new_TypeChecker draft3_definitions) [])
    = Ok draft4_type_checker
  ∧ module_store !! draft3_type_checker
    = Some (TypeCheckerObject {| _type_checkers := draft3_definitions |})
  ∧ module_store !! draft4_type_checker
    = Some (TypeCheckerObject
              {| _type_checkers := delete "any" draft3_definitions |})
  ∧ ∀ t v,
      outcome (is_type draft4_type_checker v t) module_store
      = if decide (t = "any") then Raise (UndefinedTypeCheck "any")
        else outcome (is_type draft3_type_checker v t) module_store.
Proof.
  split; [by vm_compute |]. split; [by vm_compute |].
  split; [apply draft3_lookup |]. split; [apply draft4_lookup |].
  intros t v.
  rewrite (is_type_outcome _ _ _ _ _ draft3_lookup),
    (is_type_outcome _ _ _ _ _ draft4_lookup).
  cbn [_type_checkers]. case_decide as Ht.
  - subst t. by rewrite lookup_delete_eq.
  - rewrite lookup_delete_ne by done.
    destruct (draft3_definitions !! t) as [fn |] eqn:Hfn; [| done].
    apply builtin_ignores_checker. by eapply draft3_definitions_builtin.
Qed.

(** C8, as the code has it.  On both presets [is_type(v, "array")] is
    true exactly when [v] is an instance of [list].  Every value it
    accepts is a sequence container that is neither a mapping nor a
    string, and no mapping and no string is accepted; sequence
    containers other than lists are not accepted either. *)
Theorem preset_array_is_list v :
  outcome (is_type draft3_type_checker v "array") module_store
  = Ok (isinstance v c_list)
  ∧ outcome (is_type draft4_type_checker v "array") module_store
    = Ok (isinstance v c_list)
  ∧ (isinstance v c_list = true ↔ ∃ items, v = VList items)
  ∧ implb (isinstance v c_list) (spec_is_array v) = true
  ∧ implb (isinstance v c_Mapping || isinstance v c_str)
      (negb (isinstance v c_list)) = true.
Proof.
  split; [| split; [| split; [| split]]].
  - by rewrite (is_type_outcome _ _ _ _ _ draft3_lookup).
  - by rewrite (is_type_outcome _ _ _ _ _ draft4_lookup).
  - split.
    + destruct v; try done. intros _. by eexists.
    + by intros [items ->].
  - by destruct v.
  - by destruct v.
Qed.

End Registry.

(** * Concrete runs *)

Lemma constant_env_total : total_predicates constant_env.
Proof. intros k checker instance. by eexists. Qed.

Lemma foo_bar_lookup :
  foo_bar_store !! 0
  = Some (TypeCheckerObject
            {| _type_checkers :=
                 list_to_map [("foo", fn_is_any); ("bar", fn_user 0)] |}).
Proof. reflexivity. Qed.

(** C1, counterexample.  On the draft3 preset the collection
    ["string", "string", "foo"] has the missing name "foo", yet the error
    carries "string", which the preset has: no missing name of the
    collection is the one carried. *)
Lemma remove_many_error_name_counterexample :
  module_store !! draft3_type_checker
  = Some (TypeCheckerObject {| _type_checkers := draft3_definitions |})
  ∧ "foo" ∈ ["string"; "string"; "foo"]
  ∧ draft3_definitions !! "foo" = None
  ∧ draft3_definitions !! "string" = Some fn_is_string
  ∧ outcome (remove_many draft3_type_checker ["string"; "string"; "foo"])
      module_store
    = Raise (UndefinedTypeCheck "string")
  ∧ ¬ ∃ name,
        name ∈ ["string"; "string"; "foo"]
        ∧ draft3_definitions !! name = None
        ∧ outcome (remove_many draft3_type_checker ["string"; "string"; "foo"])
            module_store
          = Raise (UndefinedTypeCheck name).
Proof.
  assert (Hrun :
    outcome (remove_many draft3_type_checker ["string"; "string"; "foo"])
      module_store
    = Raise (UndefinedTypeCheck "string")) by (by vm_compute).
  split; [apply draft3_lookup |]. split; [set_solver |].
  split; [done |]. split; [done |]. split; [exact Hrun |].
  intros (name & _ & Habsent & Hname). rewrite Hrun in Hname.
  injection Hname as <-. discriminate Habsent.
Qed.

Lemma remove_many_all_or_nothing_witness :
  module_store !! draft3_type_checker
  = Some (TypeCheckerObject {| _type_checkers := draft3_definitions |})
  ∧ "foo" ∈ ["string"; "foo"]
  ∧ draft3_definitions !! "foo" = None
  ∧ ∃ failing,
      outcome (remove_many draft3_type_checker ["string"; "foo"]) module_store
      = Raise (UndefinedTypeCheck failing)
      ∧ first_absent_or_repeated draft3_definitions ["string"; "foo"] failing
      ∧ (NoDup ["string"; "foo"] → draft3_definitions !! failing = None)
      ∧ no_new_registry (remove_many draft3_type_checker ["string"; "foo"])
          module_store
      ∧ preserves_store (remove_many draft3_type_checker ["string"; "foo"])
          module_store
      ∧ ∀ v t,
          outcome (is_type (env := constant_env) draft3_type_checker v t)
            (final (remove_many draft3_type_checker ["string"; "foo"])
               module_store)
          = outcome (is_type (env := constant_env) draft3_type_checker v t)
              module_store.
Proof.
  split; [apply draft3_lookup |]. split; [set_solver |]. split; [reflexivity |].
  apply (remove_many_all_or_nothing (env := constant_env) module_store
           draft3_type_checker {| _type_checkers := draft3_definitions |}
           ["string"; "foo"] "foo").
  - apply draft3_lookup.
  - set_solver.
  - reflexivity.
Defined.

Lemma is_type_raises_iff_absent_witness :
  module_store !! draft4_type_checker
  = Some (TypeCheckerObject
            {| _type_checkers := delete "any" draft3_definitions |})
  ∧ total_predicates constant_env
  ∧ (outcome (is_type (env := constant_env) draft4_type_checker (VInt 3) "any")
       module_store
     = Raise (UndefinedTypeCheck "any")
     ↔ delete "any" draft3_definitions !! "any" = None)
  ∧ (∀ fn, delete "any" draft3_definitions !! "any" = Some fn →
       outcome (is_type (env := constant_env) draft4_type_checker (VInt 3) "any")
         module_store
       = apply_callable (env := constant_env) fn
           {| _type_checkers := delete "any" draft3_definitions |} (VInt 3)
       ∧ ∃ b,
           outcome
             (is_type (env := constant_env) draft4_type_checker (VInt 3) "any")
             module_store
           = Ok b)
  ∧ (∀ e,
       outcome (is_type (env := constant_env) draft4_type_checker (VInt 3) "any")
         module_store
       = Raise e →
       e = UndefinedTypeCheck "any")
  ∧ final (is_type (env := constant_env) draft4_type_checker (VInt 3) "any")
      module_store
    = module_store.
Proof.
  split; [apply draft4_lookup |]. split; [apply constant_env_total |].
  exact (is_type_raises_iff_absent (env := constant_env) module_store
           draft4_type_checker
           {| _type_checkers := delete "any" draft3_definitions |}
           (VInt 3) "any" draft4_lookup constant_env_total).
Defined.

Lemma builtin_integer_number_boolean_witness :
  module_store !! draft3_type_checker
  = Some (TypeCheckerObject {| _type_checkers := draft3_definitions |})
  ∧ c_int ∈ int_types (Environment := constant_env)
  ∧ (∀ n,
       outcome (is_type (env := constant_env) draft3_type_checker (VInt n)
                  "integer") module_store
       = Ok true
       ∧ outcome (is_type (env := constant_env) draft3_type_checker (VInt n)
                    "number") module_store
         = Ok true)
  ∧ (∀ b,
       outcome (is_type (env := constant_env) draft3_type_checker (VBool b)
                  "integer") module_store
       = Ok false
       ∧ outcome (is_type (env := constant_env) draft3_type_checker (VBool b)
                    "number") module_store
         = Ok false
       ∧ outcome (is_type (env := constant_env) draft3_type_checker (VBool b)
                    "boolean") module_store
         = Ok true).
Proof.
  split; [apply draft3_lookup |]. split; [apply list_elem_of_here |].
  apply (builtin_integer_number_boolean (env := constant_env) module_store
           draft3_type_checker {| _type_checkers := draft3_definitions |}).
  - apply draft3_lookup.
  - apply list_elem_of_here.
  - reflexivity.
  - reflexivity.
  - reflexivity.
Defined.

Lemma updates_leave_receiver_unchanged_witness :
  module_store !! draft3_type_checker
  = Some (TypeCheckerObject {| _type_checkers := draft3_definitions |})
  ∧ (preserves_store (redefine draft3_type_checker "string" (fn_user 0))
       module_store
     ∧ preserves_store
         (redefine_many draft3_type_checker {[ "foo" := fn_user 1 ]})
         module_store
     ∧ preserves_store (remove draft3_type_checker "string") module_store
     ∧ preserves_store (remove_many draft3_type_checker ["string"; "null"])
         module_store)
  ∧ (∀ v t,
       outcome (is_type (env := constant_env) draft3_type_checker v t)
         (final (redefine draft3_type_checker "string" (fn_user 0))
            module_store)
       = outcome (is_type (env := constant_env) draft3_type_checker v t)
           module_store
       ∧ outcome (is_type (env := constant_env) draft3_type_checker v t)
           (final (redefine_many draft3_type_checker {[ "foo" := fn_user 1 ]})
              module_store)
         = outcome (is_type (env := constant_env) draft3_type_checker v t)
             module_store
       ∧ outcome (is_type (env := constant_env) draft3_type_checker v t)
           (final (remove draft3_type_checker "string") module_store)
         = outcome (is_type (env := constant_env) draft3_type_checker v t)
             module_store
       ∧ outcome (is_type (env := constant_env) draft3_type_checker v t)
           (final (remove_many draft3_type_checker ["string"; "null"])
              module_store)
         = outcome (is_type (env := constant_env) draft3_type_checker v t)
             module_store)
  ∧ ∃ r2,
      outcome (redefine draft3_type_checker "string" (fn_user 0)) module_store
      = Ok r2
      ∧ r2 ≠ draft3_type_checker
      ∧ module_store !! r2 = None
      ∧ ∀ v,
          outcome (is_type (env := constant_env) r2 v "string")
            (final (redefine draft3_type_checker "string" (fn_user 0))
               module_store)
          = apply_callable (env := constant_env) (fn_user 0)
              {| _type_checkers := <["string" := fn_user 0]> draft3_definitions |}
              v.
Proof.
  split; [apply draft3_lookup |].
  exact (updates_leave_receiver_unchanged (env := constant_env) module_store
           draft3_type_checker {| _type_checkers := draft3_definitions |}
           "string" (fn_user 0) {[ "foo" := fn_user 1 ]} ["string"; "null"]
           draft3_lookup).
Defined.

(** The callables of [delegating_env] do what their description says. *)
Lemma delegating_user_code_is_type s self checker instance k :
  s !! self = Some (TypeCheckerObject checker) →
  user_code (Environment := delegating_env) k checker instance
  = outcome (is_type (env := constant_env) self instance "foo") s.
Proof. intros Hs. by rewrite (is_type_outcome _ _ _ _ _ Hs). Qed.

(** C6, counterexample.  The receiver maps "foo" to [is_any] and "bar" to a
    callable that asks the checker it is handed about "foo".  Redefining
    only "foo" as [is_null] leaves the entry for "bar" alone, yet the
    derived registry answers differently for "bar". *)
Lemma redefine_many_behaviour_counterexample :
  foo_bar_store !! 0
  = Some (TypeCheckerObject
            {| _type_checkers :=
                 list_to_map [("foo", fn_is_any); ("bar", fn_user 0)] |})
  ∧ ({[ "foo" := fn_is_null ]} : gmap string callable) !! "bar" = None
  ∧ outcome (redefine_many 0 {[ "foo" := fn_is_null ]}) foo_bar_store = Ok 1
  ∧ outcome (is_type (env := delegating_env) 0 (VInt 5) "bar") foo_bar_store
    = Ok true
  ∧ outcome (is_type (env := delegating_env) 1 (VInt 5) "bar")
      (final (redefine_many 0 {[ "foo" := fn_is_null ]}) foo_bar_store)
    = Ok false
  ∧ outcome (is_type (env := delegating_env) 1 (VInt 5) "bar")
      (final (redefine_many 0 {[ "foo" := fn_is_null ]}) foo_bar_store)
    ≠ outcome (is_type (env := delegating_env) 0 (VInt 5) "bar") foo_bar_store.
Proof.
  assert (H0 :
    outcome (is_type (env := delegating_env) 0 (VInt 5) "bar") foo_bar_store
    = Ok true) by (by vm_compute).
  assert (H1 :
    outcome (is_type (env := delegating_env) 1 (VInt 5) "bar")
      (final (redefine_many 0 {[ "foo" := fn_is_null ]}) foo_bar_store)
    = Ok false) by (by vm_compute).
  split; [apply foo_bar_lookup |]. split; [done |]. split; [by vm_compute |].
  split; [exact H0 |]. split; [exact H1 |].
  rewrite H0, H1. discriminate.
Qed.

Lemma redefine_many_keeps_other_entries_witness :
  module_store !! draft3_type_checker
  = Some (TypeCheckerObject {| _type_checkers := draft3_definitions |})
  ∧ ∃ r2 derived,
      outcome (redefine_many draft3_type_checker {[ "foo" := fn_user 1 ]})
        module_store
      = Ok r2
      ∧ final (redefine_many draft3_type_checker {[ "foo" := fn_user 1 ]})
          module_store !! r2
        = Some (TypeCheckerObject derived)
      ∧ (∀ t fn,
           ({[ "foo" := fn_user 1 ]} : gmap string callable) !! t = Some fn →
           _type_checkers derived !! t = Some fn)
      ∧ (∀ t,
           ({[ "foo" := fn_user 1 ]} : gmap string callable) !! t = None →
           _type_checkers derived !! t = draft3_definitions !! t)
      ∧ (∀ t v,
           ({[ "foo" := fn_user 1 ]} : gmap string callable) !! t = None →
           outcome (is_type (env := constant_env) r2 v t)
             (final (redefine_many draft3_type_checker {[ "foo" := fn_user 1 ]})
                module_store)
           = match draft3_definitions !! t with
             | Some fn => apply_callable (env := constant_env) fn derived v
             | None => Raise (UndefinedTypeCheck t)
             end)
      ∧ (∀ t v,
           ({[ "foo" := fn_user 1 ]} : gmap string callable) !! t = None →
           (∀ fn, draft3_definitions !! t = Some fn →
              is_builtin fn = true
              ∨ apply_callable (env := constant_env) fn derived v
                = apply_callable (env := constant_env) fn
                    {| _type_checkers := draft3_definitions |} v) →
           outcome (is_type (env := constant_env) r2 v t)
             (final (redefine_many draft3_type_checker {[ "foo" := fn_user 1 ]})
                module_store)
           = outcome (is_type (env := constant_env) draft3_type_checker v t)
               module_store).
Proof.
  split; [apply draft3_lookup |].
  exact (redefine_many_keeps_other_entries (env := constant_env) module_store
           draft3_type_checker {| _type_checkers := draft3_definitions |}
           {[ "foo" := fn_user 1 ]} draft3_lookup).
Defined.

Lemma redefine_is_singleton_redefine_many_witness :
  module_store !! draft3_type_checker
  = Some (TypeCheckerObject {| _type_checkers := draft3_definitions |})
  ∧ redefine draft3_type_checker "string" (fn_user 0) module_store
    = redefine_many draft3_type_checker {[ "string" := fn_user 0 ]} module_store
  ∧ ∃ r2,
      outcome (redefine draft3_type_checker "string" (fn_user 0)) module_store
      = Ok r2
      ∧ outcome (redefine_many draft3_type_checker {[ "string" := fn_user 0 ]})
          module_store
        = Ok r2
      ∧ final (redefine draft3_type_checker "string" (fn_user 0)) module_store
        !! r2
        = Some (TypeCheckerObject
                  {| _type_checkers :=
                       <["string" := fn_user 0]> draft3_definitions |})
      ∧ final (redefine_many draft3_type_checker {[ "string" := fn_user 0 ]})
          module_store !! r2
        = Some (TypeCheckerObject
                  {| _type_checkers :=
                       <["string" := fn_user 0]> draft3_definitions |}).
Proof.
  split; [apply draft3_lookup |].
  exact (redefine_is_singleton_redefine_many module_store draft3_type_checker
           {| _type_checkers := draft3_definitions |} "string" (fn_user 0)
           draft3_lookup).
Defined.

Lemma redefine_idempotent_witness :
  module_store !! draft3_type_checker
  = Some (TypeCheckerObject {| _type_checkers := draft3_definitions |})
  ∧ ∃ r1 s1 r2 s2,
      redefine draft3_type_checker "string" (fn_user 0) module_store
      = (Ok r1, s1)
      ∧ redefine r1 "string" (fn_user 0) s1 = (Ok r2, s2)
      ∧ r1 ≠ r2
      ∧ ∀ v n,
          outcome (is_type (env := constant_env) r2 v n) s2
          = outcome (is_type (env := constant_env) r1 v n) s2.
Proof.
  split; [apply draft3_lookup |].
  exact (redefine_idempotent (env := constant_env) module_store
           draft3_type_checker {| _type_checkers := draft3_definitions |}
           "string" (fn_user 0) draft3_lookup).
Defined.

(** C8, counterexample.  A tuple is a sequence container and neither a
    mapping nor a string, and both presets say it is no "array". *)
Lemma array_rule_counterexample :
  spec_is_array (VTuple [VInt 1; VInt 2]) = true
  ∧ outcome (is_type (env := constant_env) draft3_type_checker
               (VTuple [VInt 1; VInt 2]) "array") module_store
    = Ok false
  ∧ outcome (is_type (env := constant_env) draft4_type_checker
               (VTuple [VInt 1; VInt 2]) "array") module_store
    = Ok false.
Proof. repeat split; by vm_compute. Qed.

(** C10, counterexample.  The draft3 preset has "string", and the
    collection ["foo", "string", "string"] names it twice, yet the error
    carries "foo", whose deletion fails first. *)
Lemma remove_many_repeated_name_counterexample :
  module_store !! draft3_type_checker
  = Some (TypeCheckerObject {| _type_checkers := draft3_definitions |})
  ∧ draft3_definitions !! "string" = Some fn_is_string
  ∧ outcome (remove_many draft3_type_checker ["foo"; "string"; "string"])
      module_store
    = Raise (UndefinedTypeCheck "foo")
  ∧ outcome (remove_many draft3_type_checker ["foo"; "string"; "string"])
      module_store
    ≠ Raise (UndefinedTypeCheck "string").
Proof.
  assert (Hrun :
    outcome (remove_many draft3_type_checker ["foo"; "string"; "string"])
      module_store
    = Raise (UndefinedTypeCheck "foo")) by (by vm_compute).
  split; [apply draft3_lookup |]. split; [done |]. split; [exact Hrun |].
  rewrite Hrun. discriminate.
Qed.

Lemma remove_many_repeated_name_witness :
  module_store !! draft3_type_checker
  = Some (TypeCheckerObject {| _type_checkers := draft3_definitions |})
  ∧ is_Some (draft3_definitions !! "string")
  ∧ (∃ failing,
       outcome (remove_many draft3_type_checker
                  ([] ++ "string" :: ["null"] ++ "string" :: [])) module_store
       = Raise (UndefinedTypeCheck failing)
       ∧ first_absent_or_repeated draft3_definitions
           ([] ++ "string" :: ["null"] ++ "string" :: []) failing)
  ∧ no_new_registry
      (remove_many draft3_type_checker
         ([] ++ "string" :: ["null"] ++ "string" :: [])) module_store
  ∧ preserves_store
      (remove_many draft3_type_checker
         ([] ++ "string" :: ["null"] ++ "string" :: [])) module_store
  ∧ (NoDup ([] ++ ["null"]) →
     "string" ∉ [] ++ ["null"] →
     (∀ x, x ∈ [] ++ ["null"] → is_Some (draft3_definitions !! x)) →
     outcome (remove_many draft3_type_checker
                ([] ++ "string" :: ["null"] ++ "string" :: [])) module_store
     = Raise (UndefinedTypeCheck "string"))
  ∧ outcome (remove_many draft3_type_checker ["string"; "string"]) module_store
    = Raise (UndefinedTypeCheck "string").
Proof.
  assert (Hsome : is_Some (draft3_definitions !! "string")) by (by eexists).
  split; [apply draft3_lookup |]. split; [exact Hsome |].
  exact (remove_many_repeated_name module_store draft3_type_checker
           {| _type_checkers := draft3_definitions |} [] ["null"] [] "string"
           draft3_lookup Hsome).
Defined.

(** * Further properties of the registry *)

Section Algebra.

Context {env : Environment}.

Lemma run_parts {A} (m : M A) s a s' :
  m s = (a, s') → outcome m s = a ∧ final m s = s'.
Proof. intros H. unfold outcome, final. by rewrite H. Qed.

Lemma lookup_second_fresh (s : store) (a b : object) :
  ((s ++ [a]) ++ [b]) !! S (length s) = Some b.
Proof.
  rewrite lookup_app_r; rewrite length_app; simpl; [| lia].
  by replace (S (length s) - (length s + 1)) with 0 by lia.
Qed.

Lemma remove_many_ok_run s self checker types :
  s !! self = Some (TypeCheckerObject checker) →
  first_failure (_type_checkers checker) types = None →
  remove_many self types s
  = (Ok (S (length s)),
     (s ++ [EvolverObject (working_after (_type_checkers checker) types)])
     ++ [TypeCheckerObject
           {| _type_checkers :=
                working_after (_type_checkers checker) types |}]).
Proof.
  intros Hs Hnone. rewrite (remove_many_run _ _ _ _ Hs). cbv zeta.
  by rewrite Hnone.
Qed.

Lemma remove_run_present s self checker t fn :
  s !! self = Some (TypeCheckerObject checker) →
  _type_checkers checker !! t = Some fn →
  remove self t s
  = (Ok (S (length s)),
     (s ++ [EvolverObject (delete t (_type_checkers checker))])
     ++ [TypeCheckerObject
           {| _type_checkers := delete t (_type_checkers checker) |}]).
Proof.
  intros Hs Ht. unfold remove.
  rewrite (remove_many_ok_run _ _ _ _ Hs); simpl; by rewrite Ht.
Qed.

Lemma remove_run_absent s self checker t :
  s !! self = Some (TypeCheckerObject checker) →
  _type_checkers checker !! t = None →
  remove self t s
  = (Raise (UndefinedTypeCheck t),
     s ++ [EvolverObject (_type_checkers checker)]).
Proof.
  intros Hs Ht. unfold remove.
  rewrite (remove_many_raises _ _ _ _ t Hs); simpl; by rewrite Ht.
Qed.

(** ** Removing one name *)

(** X1. [remove] on a name the receiver has returns a new registry whose
    mapping is that of the receiver without the name: the new registry
    raises [UndefinedTypeCheck] for it and maps every other name as the
    receiver does. *)
Theorem remove_present_returns s r checker t fn :
  s !! r = Some (TypeCheckerObject checker) →
  _type_checkers checker !! t = Some fn →
  ∃ r2,
    outcome (remove r t) s = Ok r2
    ∧ s !! r2 = None
    ∧ final (remove r t) s !! r2
      = Some (TypeCheckerObject
                {| _type_checkers := delete t (_type_checkers checker) |})
    ∧ (∀ v, outcome (is_type r2 v t) (final (remove r t) s)
            = Raise (UndefinedTypeCheck t))
    ∧ ∀ n v, n ≠ t →
        outcome (is_type r2 v n) (final (remove r t) s)
        = match _type_checkers checker !! n with
          | Some fn' =>
              apply_callable fn'
                {| _type_checkers := delete t (_type_checkers checker) |} v
          | None => Raise (UndefinedTypeCheck n)
          end.
Proof.
  intros Hs Ht. exists (S (length s)). unfold outcome at 1, final.
  rewrite (remove_run_present _ _ _ _ _ Hs Ht). simpl.
  split; [done |]. split; [apply lookup_ge_None; lia |].
  split; [apply lookup_second_fresh |]. split.
  - intros v. rewrite (is_type_outcome _ _ _ _ _ (lookup_second_fresh _ _ _)).
    simpl. by rewrite lookup_delete_eq.
  - intros n v Hne.
    rewrite (is_type_outcome _ _ _ _ _ (lookup_second_fresh _ _ _)).
    simpl. by rewrite lookup_delete_ne.
Qed.

(** X2. [remove] on a name the receiver lacks raises [UndefinedTypeCheck]
    with that name; no registry comes into being and every object of the
    store stays as it was. *)
Theorem remove_absent_raises s r checker t :
  s !! r = Some (TypeCheckerObject checker) →
  _type_checkers checker !! t = None →
  outcome (remove r t) s = Raise (UndefinedTypeCheck t)
  ∧ no_new_registry (remove r t) s
  ∧ preserves_store (remove r t) s.
Proof.
  intros Hs Ht. split; [| split].
  - unfold outcome. by rewrite (remove_run_absent _ _ _ _ Hs Ht).
  - intros l c Hl. unfold final in Hl.
    rewrite (remove_run_absent _ _ _ _ Hs Ht) in Hl. simpl in Hl.
    by eapply lookup_extend_inv.
  - by eapply remove_many_preserves.
Qed.

(** ** Removing several names *)

(** X3. [remove_many] returns a registry exactly when the receiver has
    every name of the collection and the collection names nothing twice. *)
Theorem remove_many_returns_iff s r checker types :
  s !! r = Some (TypeCheckerObject checker) →
  (∃ r2, outcome (remove_many r types) s = Ok r2)
  ↔ NoDup types ∧ ∀ x, x ∈ types → is_Some (_type_checkers checker !! x).
Proof.
  intros Hs. rewrite <- first_failure_None. unfold outcome.
  rewrite (remove_many_run _ _ _ _ Hs). cbv zeta.
  destruct (first_failure (_type_checkers checker) types) as [t |]; simpl.
  - split; [by intros [r2 [=]] | done].
  - split; [done | by eexists].
Qed.

Lemma working_after_perm (m : gmap string callable) (types types' : list string) :
  types ≡ₚ types' →
  first_failure m types = None →
  first_failure m types' = None
  ∧ working_after m types' = working_after m types.
Proof.
  intros Hperm Hnone.
  assert (Hnone' : first_failure m types' = None).
  { apply first_failure_None. apply first_failure_None in Hnone as [Hnd Hall].
    split; [by rewrite <- Hperm |]. intros x Hx. apply Hall. by rewrite Hperm. }
  split; [done |]. apply map_eq. intros k.
  rewrite !working_after_lookup by done.
  destruct (decide (k ∈ types)) as [Hin | Hnotin].
  - rewrite decide_True; [done | by rewrite <- Hperm].
  - rewrite decide_False; [done | by rewrite <- Hperm].
Qed.

(** X4. The order of the names does not matter to [remove_many]: when it
    returns for one order it does exactly the same for every other order,
    and when it raises for one order it raises for every other order. *)
Theorem remove_many_order s r checker types types' :
  s !! r = Some (TypeCheckerObject checker) →
  types ≡ₚ types' →
  ((∃ r2, outcome (remove_many r types) s = Ok r2) →
   remove_many r types' s = remove_many r types s)
  ∧ ((∃ e, outcome (remove_many r types) s = Raise e) →
     ∃ e', outcome (remove_many r types') s = Raise e').
Proof.
  intros Hs Hperm. unfold outcome.
  rewrite !(remove_many_run _ _ _ _ Hs). cbv zeta.
  destruct (first_failure (_type_checkers checker) types) as [t |] eqn:Hfail.
  - split; [by intros [r2 [=]] |]. intros _.
    destruct (first_failure (_type_checkers checker) types') as [t' |]
      eqn:Hfail'; [by eexists |].
    symmetry in Hperm.
    destruct (working_after_perm _ _ _ Hperm Hfail') as [Hnone _]. congruence.
  - split; [| by intros [e [=]]]. intros _.
    destruct (working_after_perm _ _ _ Hperm Hfail) as [-> ->]. done.
Qed.

(** X5. With nothing to change, [redefine_many] and [remove_many] still
    return a new registry, and it holds the mapping of the receiver. *)
Theorem empty_updates_copy s r checker :
  s !! r = Some (TypeCheckerObject checker) →
  ∃ r2 r3,
    outcome (redefine_many r ∅) s = Ok r2
    ∧ r2 ≠ r
    ∧ final (redefine_many r ∅) s !! r2 = Some (TypeCheckerObject checker)
    ∧ outcome (remove_many r []) s = Ok r3
    ∧ r3 ≠ r
    ∧ final (remove_many r []) s !! r3 = Some (TypeCheckerObject checker).
Proof.
  intros Hs. exists (length s), (S (length s)). unfold outcome, final.
  rewrite (redefine_many_run _ _ _ _ Hs).
  rewrite (remove_many_ok_run _ _ _ _ Hs) by done. simpl.
  pose proof (lookup_lt_Some _ _ _ Hs) as Hlt.
  destruct checker as [m]. simpl.
  split; [done |]. split; [lia |].
  split; [by rewrite lookup_fresh, (left_id_L ∅ (∪)) |].
  split; [done |]. split; [lia |]. apply lookup_second_fresh.
Qed.

Lemma remove_each_run (types : list string) : ∀ s self checker,
  s !! self = Some (TypeCheckerObject checker) →
  match first_failure (_type_checkers checker) types with
  | Some t => outcome (remove_each self types) s = Raise (UndefinedTypeCheck t)
  | None =>
      ∃ r1,
        outcome (remove_each self types) s = Ok r1
        ∧ final (remove_each self types) s !! r1
          = Some (TypeCheckerObject
                    {| _type_checkers :=
                         working_after (_type_checkers checker) types |})
  end.
Proof.
  induction types as [| t rest IH]; intros s self checker Hs;
    cbn [first_failure working_after remove_each].
  - exists self. split; [done |]. by destruct checker.
  - destruct (_type_checkers checker !! t) as [fn |] eqn:Ht.
    + pose proof (remove_run_present _ _ _ _ _ Hs Ht) as Hrun.
      specialize (IH _ (S (length s))
                    {| _type_checkers := delete t (_type_checkers checker) |}
                    (lookup_second_fresh s
                       (EvolverObject (delete t (_type_checkers checker)))
                       _)).
      unfold outcome, final in *.
      by rewrite (bind_run _ _ _ _ _ Hrun).
    + unfold outcome, bind. by rewrite (remove_run_absent _ _ _ _ Hs Ht).
Qed.

(** X6. Removing the names one at a time with [remove] ends as
    [remove_many] does: either both raise [UndefinedTypeCheck] with the
    same name, or both return a registry, and the two registries hold the
    same mapping. *)
Theorem remove_many_as_repeated_remove s r checker types :
  s !! r = Some (TypeCheckerObject checker) →
  (∃ failing,
     outcome (remove_each r types) s = Raise (UndefinedTypeCheck failing)
     ∧ outcome (remove_many r types) s = Raise (UndefinedTypeCheck failing))
  ∨ (∃ r1 r2 derived,
       outcome (remove_each r types) s = Ok r1
       ∧ outcome (remove_many r types) s = Ok r2
       ∧ final (remove_each r types) s !! r1 = Some (TypeCheckerObject derived)
       ∧ final (remove_many r types) s !! r2
         = Some (TypeCheckerObject derived)).
Proof.
  intros Hs. pose proof (remove_each_run types _ _ _ Hs) as Heach.
  destruct (first_failure (_type_checkers checker) types) as [t |] eqn:Hfail.
  - left. exists t. split; [done |].
    unfold outcome. by rewrite (remove_many_raises _ _ _ _ _ Hs Hfail).
  - right. destruct Heach as (r1 & Hout & Hfin).
    eexists r1, (S (length s)), _. split; [done |].
    unfold outcome at 1, final at 2.
    rewrite (remove_many_ok_run _ _ _ _ Hs Hfail). simpl.
    split; [done |]. split; [exact Hfin | apply lookup_second_fresh].
Qed.

(** ** Composing updates *)

(** X7. Two batches applied one after the other give the mapping of one
    call with the merged batch, in which the later batch wins. *)
Theorem redefine_many_twice s r checker d1 d2 :
  s !! r = Some (TypeCheckerObject checker) →
  ∃ r1 s1 r2 s2 r3,
    redefine_many r d1 s = (Ok r1, s1)
    ∧ redefine_many r1 d2 s1 = (Ok r2, s2)
    ∧ outcome (redefine_many r (d2 ∪ d1)) s = Ok r3
    ∧ s2 !! r2
      = Some (TypeCheckerObject
                {| _type_checkers := (d2 ∪ d1) ∪ _type_checkers checker |})
    ∧ final (redefine_many r (d2 ∪ d1)) s !! r3
      = Some (TypeCheckerObject
                {| _type_checkers := (d2 ∪ d1) ∪ _type_checkers checker |}).
Proof.
  intros Hs.
  set (first := TypeCheckerObject
                  {| _type_checkers := d1 ∪ _type_checkers checker |}).
  pose proof (redefine_many_run _ _ _ d1 Hs) as Hfirst.
  pose proof (redefine_many_run _ _ _ d2 (lookup_fresh s first)) as Hsecond.
  eexists _, _, _, _, (length s).
  split; [exact Hfirst |]. split; [exact Hsecond |].
  unfold outcome, final. rewrite (redefine_many_run _ _ _ _ Hs). simpl.
  split; [done |]. split; [| apply lookup_fresh].
  rewrite lookup_fresh. simpl. by rewrite (assoc_L (∪)).
Qed.

(** X8. Two batches with no name in common can be applied in either order:
    the registries at the end hold the same mapping. *)
Theorem redefine_many_disjoint_order s r checker d1 d2 :
  s !! r = Some (TypeCheckerObject checker) →
  d1 ##ₘ d2 →
  ∃ r1 s1 r2 s2 r1' s1' r2' s2' derived,
    redefine_many r d1 s = (Ok r1, s1)
    ∧ redefine_many r1 d2 s1 = (Ok r2, s2)
    ∧ redefine_many r d2 s = (Ok r1', s1')
    ∧ redefine_many r1' d1 s1' = (Ok r2', s2')
    ∧ s2 !! r2 = Some (TypeCheckerObject derived)
    ∧ s2' !! r2' = Some (TypeCheckerObject derived).
Proof.
  intros Hs Hdisj.
  set (a := TypeCheckerObject
              {| _type_checkers := d1 ∪ _type_checkers checker |}).
  set (b := TypeCheckerObject
              {| _type_checkers := d2 ∪ _type_checkers checker |}).
  pose proof (redefine_many_run _ _ _ d1 Hs) as H1.
  pose proof (redefine_many_run _ _ _ d2 (lookup_fresh s a)) as H2.
  pose proof (redefine_many_run _ _ _ d2 Hs) as H3.
  pose proof (redefine_many_run _ _ _ d1 (lookup_fresh s b)) as H4.
  eexists _, _, _, _, _, _, _, _, _.
  split; [exact H1 |]. split; [exact H2 |].
  split; [exact H3 |]. split; [exact H4 |].
  split; [apply lookup_fresh |].
  rewrite lookup_fresh. simpl.
  by rewrite !(assoc_L (∪)), (map_union_comm d1 d2).
Qed.

(** X9. Redefining a name and then removing it gives the mapping of the
    receiver without the name; when the receiver did not have the name,
    this is the mapping of the receiver. *)
Theorem redefine_then_remove s r checker t f :
  s !! r = Some (TypeCheckerObject checker) →
  ∃ r1 s1 r2 s2,
    redefine r t f s = (Ok r1, s1)
    ∧ remove r1 t s1 = (Ok r2, s2)
    ∧ s2 !! r2
      = Some (TypeCheckerObject
                {| _type_checkers := delete t (_type_checkers checker) |})
    ∧ (_type_checkers checker !! t = None →
       s2 !! r2 = Some (TypeCheckerObject checker)).
Proof.
  intros Hs.
  set (first :=
         TypeCheckerObject
           {| _type_checkers := <[t := f]> (_type_checkers checker) |}).
  pose proof (redefine_run _ _ _ t f Hs) as Hfirst.
  pose proof (remove_run_present _ _ _ t f (lookup_fresh s first)
                (lookup_insert_eq _ _ _)) as Hsecond.
  eexists _, _, _, _. split; [exact Hfirst |]. split; [exact Hsecond |].
  rewrite lookup_second_fresh. simpl. rewrite delete_insert_eq.
  split; [done |]. intros Hnone. rewrite delete_id by done.
  by destruct checker.
Qed.

(** X10. Removing a name and then redefining it with the predicate it had
    gives back the mapping of the receiver. *)
Theorem remove_then_redefine_restores s r checker t f :
  s !! r = Some (TypeCheckerObject checker) →
  _type_checkers checker !! t = Some f →
  ∃ r1 s1 r2 s2,
    remove r t s = (Ok r1, s1)
    ∧ redefine r1 t f s1 = (Ok r2, s2)
    ∧ r2 ≠ r
    ∧ s2 !! r2 = Some (TypeCheckerObject checker).
Proof.
  intros Hs Ht.
  pose proof (remove_run_present _ _ _ _ _ Hs Ht) as Hfirst.
  pose proof (redefine_run _ _ _ t f
                (lookup_second_fresh s
                   (EvolverObject (delete t (_type_checkers checker)))
                   (TypeCheckerObject
                      {| _type_checkers :=
                           delete t (_type_checkers checker) |})))
    as Hsecond.
  eexists _, _, _, _. split; [exact Hfirst |]. split; [exact Hsecond |].
  pose proof (lookup_lt_Some _ _ _ Hs) as Hlt. split.
  - rewrite !length_app. simpl. lia.
  - rewrite lookup_fresh. simpl. rewrite insert_delete_eq, insert_id by done.
    by destruct checker.
Qed.

(** ** Failing predicates *)

(** X11. [is_type] turns only the failed lookup into
    [UndefinedTypeCheck]: what the predicate raises, a [KeyError] of its
    own included, reaches the caller as it is, and the store is as before. *)
Theorem is_type_propagates_predicate_error s r checker instance type fn e :
  s !! r = Some (TypeCheckerObject checker) →
  _type_checkers checker !! type = Some fn →
  apply_callable fn checker instance = Raise e →
  outcome (is_type r instance type) s = Raise e
  ∧ final (is_type r instance type) s = s.
Proof.
  intros Hs Hfn He. unfold outcome, final.
  by rewrite (is_type_run _ _ _ _ _ Hs), Hfn, He.
Qed.

(** ** The built-in predicates together *)

(** X12. When every class of [int_types] is numeric, whatever is an
    "integer" is a "number". *)
Theorem integer_implies_number s r checker instance :
  s !! r = Some (TypeCheckerObject checker) →
  _type_checkers checker !! "integer" = Some fn_is_integer →
  _type_checkers checker !! "number" = Some fn_is_number →
  (∀ v, isinstance_any v int_types = true → isinstance v c_Number = true) →
  outcome (is_type r instance "integer") s = Ok true →
  outcome (is_type r instance "number") s = Ok true.
Proof.
  intros Hs Hinteger Hnumber Hnumeric.
  rewrite !(is_type_outcome _ _ _ _ _ Hs), Hinteger, Hnumber. simpl.
  unfold is_integer, is_number.
  destruct (isinstance instance c_bool); [done |].
  intros [= Hint]. by rewrite (Hnumeric _ Hint).
Qed.

(** X13. A float is a "number", and it is no "integer" when no class of
    [int_types] has floats among its instances. *)
Theorem float_is_number_not_integer s r checker x :
  s !! r = Some (TypeCheckerObject checker) →
  _type_checkers checker !! "integer" = Some fn_is_integer →
  _type_checkers checker !! "number" = Some fn_is_number →
  isinstance_any (VFloat x) int_types = false →
  outcome (is_type r (VFloat x) "number") s = Ok true
  ∧ outcome (is_type r (VFloat x) "integer") s = Ok false.
Proof.
  intros Hs Hinteger Hnumber Hfloat.
  rewrite !(is_type_outcome _ _ _ _ _ Hs), Hinteger, Hnumber. simpl.
  split; [done |]. unfold is_integer.
  change (isinstance (VFloat x) c_bool) with false. cbv iota.
  by rewrite Hfloat.
Qed.

(** ** The presets, name by name *)

Ltac lookup_preset :=
  repeat match goal with
  | |- context [delete "any" draft3_definitions !! ?k] =>
      let r := eval vm_compute in (delete "any" draft3_definitions !! k) in
      change (delete "any" draft3_definitions !! k) with r
  | |- context [draft3_definitions !! ?k] =>
      let r := eval vm_compute in (draft3_definitions !! k) in
      change (draft3_definitions !! k) with r
  end.

Lemma draft3_definitions_entries t fn :
  draft3_definitions !! t = Some fn →
  (t, fn) ∈ [ ("any", fn_is_any); ("array", fn_is_array);
              ("boolean", fn_is_bool); ("integer", fn_is_integer);
              ("object", fn_is_object); ("null", fn_is_null);
              ("number", fn_is_number); ("string", fn_is_string) ].
Proof. intros H. by apply elem_of_list_to_map_2 in H. Qed.

Lemma builtin_fits checker v t fn :
  selects_exactly int_types c_int →
  selects_exactly str_types c_str →
  draft3_definitions !! t = Some fn →
  t ≠ "any" →
  apply_callable fn checker v = Ok true ↔ t ∈ draft4_types_of v.
Proof.
  intros Hint Hstr Hfn Hne. split.
  - apply draft3_definitions_entries in Hfn.
    repeat (apply elem_of_cons in Hfn as [[= -> ->] | Hfn]);
      try (by apply elem_of_nil in Hfn); try done;
      cbn [apply_callable]; unfold is_integer, is_string;
      rewrite ?Hint, ?Hstr;
      destruct v; intros H; vm_compute in H; try discriminate H; clear H;
      cbn [draft4_types_of]; set_solver.
  - intros Hin. destruct v; cbn [draft4_types_of] in Hin;
      repeat (apply elem_of_cons in Hin as [-> | Hin]);
      try (by apply elem_of_nil in Hin);
      vm_compute in Hfn; injection Hfn as <-;
      cbn [apply_callable]; unfold is_integer, is_string;
      rewrite ?Hint, ?Hstr; done.
Qed.

(** X14. With [int_types] selecting the integers and [str_types] the
    strings, the draft4 preset sorts values as follows: [None] is "null"
    and nothing else, a boolean only "boolean", an integer "integer" and
    "number", a float only "number", a string only "string", a list only
    "array", a dict only "object", and a tuple fits no name at all. *)
Theorem draft4_classification v t :
  selects_exactly int_types c_int →
  selects_exactly str_types c_str →
  outcome (is_type draft4_type_checker v t) module_store = Ok true
  ↔ t ∈ draft4_types_of v.
Proof.
  intros Hint Hstr. rewrite (is_type_outcome _ _ _ _ _ draft4_lookup).
  cbn [_type_checkers].
  destruct (delete "any" draft3_definitions !! t) as [fn |] eqn:Hfn.
  - apply lookup_delete_Some in Hfn as [Hne Hfn]. by apply builtin_fits.
  - split; [done |]. intros Hin.
    apply lookup_delete_None in Hfn as [<- | Hfn].
    + destruct v; cbn [draft4_types_of] in Hin;
        repeat (apply elem_of_cons in Hin as [Heq | Hin];
                [discriminate Heq |]);
        by apply elem_of_nil in Hin.
    + destruct v; cbn [draft4_types_of] in Hin;
        repeat (apply elem_of_cons in Hin as [-> | Hin]);
        try (by apply elem_of_nil in Hin); by vm_compute in Hfn.
Qed.

(** X15. Under the same reading of the two tuples, the draft3 preset
    accepts every value as "any" and otherwise sorts values as draft4
    does; a tuple is "any" and nothing else. *)
Theorem draft3_classification v t :
  selects_exactly int_types c_int →
  selects_exactly str_types c_str →
  outcome (is_type draft3_type_checker v t) module_store = Ok true
  ↔ t = "any" ∨ t ∈ draft4_types_of v.
Proof.
  intros Hint Hstr. rewrite (is_type_outcome _ _ _ _ _ draft3_lookup).
  cbn [_type_checkers]. destruct (decide (t = "any")) as [-> | Hne].
  - lookup_preset. split; [by left | done].
  - destruct (draft3_definitions !! t) as [fn |] eqn:Hfn.
    + rewrite (builtin_fits _ v t fn Hint Hstr Hfn Hne).
      split; [by right | by intros [? | ?]].
    + split; [done |]. intros [? | Hin]; [done |].
      destruct v; cbn [draft4_types_of] in Hin;
        repeat (apply elem_of_cons in Hin as [-> | Hin]);
        try (by apply elem_of_nil in Hin); by vm_compute in Hfn.
Qed.

(** ** The registry built without arguments *)

(** X16. [TypeChecker()] is a registry that knows no name: [is_type] and
    [remove] raise [UndefinedTypeCheck] for every name, and
    [redefine_many] on it returns a registry holding exactly the batch. *)
Theorem default_registry_knows_nothing s :
  ∃ r,
    outcome default_TypeChecker s = Ok r
    ∧ s !! r = None
    ∧ (∀ v t, outcome (is_type r v t) (final default_TypeChecker s)
              = Raise (UndefinedTypeCheck t))
    ∧ (∀ t, outcome (remove r t) (final default_TypeChecker s)
            = Raise (UndefinedTypeCheck t))
    ∧ ∀ d, ∃ r2,
        outcome (redefine_many r d) (final default_TypeChecker s) = Ok r2
        ∧ final (redefine_many r d) (final default_TypeChecker s) !! r2
          = Some (TypeCheckerObject {| _type_checkers := d |}).
Proof.
  exists (length s).
  assert (Hr : final default_TypeChecker s !! length s
               = Some (TypeCheckerObject {| _type_checkers := ∅ |}))
    by apply lookup_fresh.
  split; [done |]. split; [by apply lookup_ge_None |]. split; [| split].
  - intros v t. by rewrite (is_type_outcome _ _ _ _ _ Hr).
  - intros t. unfold outcome. by rewrite (remove_run_absent _ _ _ t Hr).
  - intros d. exists (length (final default_TypeChecker s)).
    destruct (run_parts _ _ _ _ (redefine_many_run _ _ _ d Hr)) as [-> ->].
    split; [done |]. rewrite lookup_fresh. simpl.
    by rewrite (right_id_L ∅ (∪)).
Qed.

End Algebra.

(** * Concrete runs of the further properties *)

Lemma constant_env_int_types :
  selects_exactly (int_types (Environment := constant_env)) c_int.
Proof. intros v. unfold isinstance_any. simpl. apply orb_false_r. Qed.

Lemma constant_env_str_types :
  selects_exactly (str_types (Environment := constant_env)) c_str.
Proof. intros v. unfold isinstance_any. simpl. apply orb_false_r. Qed.

Lemma constant_env_numeric v :
  isinstance_any v (int_types (Environment := constant_env)) = true →
  isinstance v c_Number = true.
Proof. rewrite constant_env_int_types. by destruct v. Qed.

Lemma odd_lookup :
  odd_store !! 0
  = Some (TypeCheckerObject {| _type_checkers := {[ "odd" := fn_user 1 ]} |}).
Proof. reflexivity. Qed.

Lemma remove_present_returns_witness :
  module_store !! draft3_type_checker
  = Some (TypeCheckerObject {| _type_checkers := draft3_definitions |})
  ∧ draft3_definitions !! "any" = Some fn_is_any
  ∧ ∃ r2,
      outcome (remove draft3_type_checker "any") module_store = Ok r2
      ∧ module_store !! r2 = None
      ∧ final (remove draft3_type_checker "any") module_store !! r2
        = Some (TypeCheckerObject
                  {| _type_checkers := delete "any" draft3_definitions |})
      ∧ (∀ v,
           outcome (is_type (env := constant_env) r2 v "any")
             (final (remove draft3_type_checker "any") module_store)
           = Raise (UndefinedTypeCheck "any"))
      ∧ ∀ n v, n ≠ "any" →
          outcome (is_type (env := constant_env) r2 v n)
            (final (remove draft3_type_checker "any") module_store)
          = match draft3_definitions !! n with
            | Some fn' =>
                apply_callable (env := constant_env) fn'
                  {| _type_checkers := delete "any" draft3_definitions |} v
            | None => Raise (UndefinedTypeCheck n)
            end.
Proof.
  split; [apply draft3_lookup |]. split; [reflexivity |].
  exact (remove_present_returns (env := constant_env) module_store
           draft3_type_checker {| _type_checkers := draft3_definitions |}
           "any" fn_is_any draft3_lookup eq_refl).
Defined.

Lemma remove_absent_raises_witness :
  module_store !! draft4_type_checker
  = Some (TypeCheckerObject
            {| _type_checkers := delete "any" draft3_definitions |})
  ∧ delete "any" draft3_definitions !! "any" = None
  ∧ outcome (remove draft4_type_checker "any") module_store
    = Raise (UndefinedTypeCheck "any")
  ∧ no_new_registry (remove draft4_type_checker "any") module_store
  ∧ preserves_store (remove draft4_type_checker "any") module_store.
Proof.
  split; [apply draft4_lookup |]. split; [reflexivity |].
  exact (remove_absent_raises module_store draft4_type_checker
           {| _type_checkers := delete "any" draft3_definitions |} "any"
           draft4_lookup eq_refl).
Defined.

Lemma remove_many_returns_iff_witness :
  module_store !! draft3_type_checker
  = Some (TypeCheckerObject {| _type_checkers := draft3_definitions |})
  ∧ ((∃ r2,
        outcome (remove_many draft3_type_checker ["string"; "null"])
          module_store
        = Ok r2)
     ↔ NoDup ["string"; "null"]
       ∧ ∀ x, x ∈ ["string"; "null"] → is_Some (draft3_definitions !! x)).
Proof.
  split; [apply draft3_lookup |].
  exact (remove_many_returns_iff module_store draft3_type_checker
           {| _type_checkers := draft3_definitions |} ["string"; "null"]
           draft3_lookup).
Defined.

Lemma remove_many_order_witness :
  module_store !! draft3_type_checker
  = Some (TypeCheckerObject {| _type_checkers := draft3_definitions |})
  ∧ ["string"; "null"] ≡ₚ ["null"; "string"]
  ∧ ((∃ r2,
        outcome (remove_many draft3_type_checker ["string"; "null"])
          module_store
        = Ok r2) →
     remove_many draft3_type_checker ["null"; "string"] module_store
     = remove_many draft3_type_checker ["string"; "null"] module_store)
  ∧ ((∃ e,
        outcome (remove_many draft3_type_checker ["string"; "null"])
          module_store
        = Raise e) →
     ∃ e',
       outcome (remove_many draft3_type_checker ["null"; "string"])
         module_store
       = Raise e').
Proof.
  split; [apply draft3_lookup |]. split; [apply perm_swap |].
  exact (remove_many_order module_store draft3_type_checker
           {| _type_checkers := draft3_definitions |}
           ["string"; "null"] ["null"; "string"] draft3_lookup
           (perm_swap _ _ _)).
Defined.

Lemma empty_updates_copy_witness :
  module_store !! draft3_type_checker
  = Some (TypeCheckerObject {| _type_checkers := draft3_definitions |})
  ∧ ∃ r2 r3,
      outcome (redefine_many draft3_type_checker ∅) module_store = Ok r2
      ∧ r2 ≠ draft3_type_checker
      ∧ final (redefine_many draft3_type_checker ∅) module_store !! r2
        = Some (TypeCheckerObject {| _type_checkers := draft3_definitions |})
      ∧ outcome (remove_many draft3_type_checker []) module_store = Ok r3
      ∧ r3 ≠ draft3_type_checker
      ∧ final (remove_many draft3_type_checker []) module_store !! r3
        = Some (TypeCheckerObject {| _type_checkers := draft3_definitions |}).
Proof.
  split; [apply draft3_lookup |].
  exact (empty_updates_copy module_store draft3_type_checker
           {| _type_checkers := draft3_definitions |} draft3_lookup).
Defined.

Lemma remove_many_as_repeated_remove_witness :
  module_store !! draft3_type_checker
  = Some (TypeCheckerObject {| _type_checkers := draft3_definitions |})
  ∧ ((∃ failing,
        outcome (remove_each draft3_type_checker ["string"; "null"])
          module_store
        = Raise (UndefinedTypeCheck failing)
        ∧ outcome (remove_many draft3_type_checker ["string"; "null"])
            module_store
          = Raise (UndefinedTypeCheck failing))
     ∨ (∃ r1 r2 derived,
          outcome (remove_each draft3_type_checker ["string"; "null"])
            module_store
          = Ok r1
          ∧ outcome (remove_many draft3_type_checker ["string"; "null"])
              module_store
            = Ok r2
          ∧ final (remove_each draft3_type_checker ["string"; "null"])
              module_store !! r1
            = Some (TypeCheckerObject derived)
          ∧ final (remove_many draft3_type_checker ["string"; "null"])
              module_store !! r2
            = Some (TypeCheckerObject derived))).
Proof.
  split; [apply draft3_lookup |].
  exact (remove_many_as_repeated_remove module_store draft3_type_checker
           {| _type_checkers := draft3_definitions |} ["string"; "null"]
           draft3_lookup).
Defined.

Lemma redefine_many_twice_witness :
  module_store !! draft3_type_checker
  = Some (TypeCheckerObject {| _type_checkers := draft3_definitions |})
  ∧ ∃ r1 s1 r2 s2 r3,
      redefine_many draft3_type_checker {[ "foo" := fn_user 0 ]} module_store
      = (Ok r1, s1)
      ∧ redefine_many r1 {[ "foo" := fn_user 1 ]} s1 = (Ok r2, s2)
      ∧ outcome
          (redefine_many draft3_type_checker
             ({[ "foo" := fn_user 1 ]} ∪ {[ "foo" := fn_user 0 ]}))
          module_store
        = Ok r3
      ∧ s2 !! r2
        = Some (TypeCheckerObject
                  {| _type_checkers :=
                       ({[ "foo" := fn_user 1 ]} ∪ {[ "foo" := fn_user 0 ]})
                       ∪ draft3_definitions |})
      ∧ final
          (redefine_many draft3_type_checker
             ({[ "foo" := fn_user 1 ]} ∪ {[ "foo" := fn_user 0 ]}))
          module_store !! r3
        = Some (TypeCheckerObject
                  {| _type_checkers :=
                       ({[ "foo" := fn_user 1 ]} ∪ {[ "foo" := fn_user 0 ]})
                       ∪ draft3_definitions |}).
Proof.
  split; [apply draft3_lookup |].
  exact (redefine_many_twice module_store draft3_type_checker
           {| _type_checkers := draft3_definitions |}
           {[ "foo" := fn_user 0 ]} {[ "foo" := fn_user 1 ]} draft3_lookup).
Defined.

Lemma foo_bar_disjoint :
  ({[ "foo" := fn_user 0 ]} : gmap string callable)
  ##ₘ {[ "bar" := fn_user 1 ]}.
Proof. by apply map_disjoint_singleton_l. Qed.

Lemma redefine_many_disjoint_order_witness :
  module_store !! draft3_type_checker
  = Some (TypeCheckerObject {| _type_checkers := draft3_definitions |})
  ∧ ({[ "foo" := fn_user 0 ]} : gmap string callable)
    ##ₘ {[ "bar" := fn_user 1 ]}
  ∧ ∃ r1 s1 r2 s2 r1' s1' r2' s2' derived,
      redefine_many draft3_type_checker {[ "foo" := fn_user 0 ]} module_store
      = (Ok r1, s1)
      ∧ redefine_many r1 {[ "bar" := fn_user 1 ]} s1 = (Ok r2, s2)
      ∧ redefine_many draft3_type_checker {[ "bar" := fn_user 1 ]} module_store
        = (Ok r1', s1')
      ∧ redefine_many r1' {[ "foo" := fn_user 0 ]} s1' = (Ok r2', s2')
      ∧ s2 !! r2 = Some (TypeCheckerObject derived)
      ∧ s2' !! r2' = Some (TypeCheckerObject derived).
Proof.
  split; [apply draft3_lookup |]. split; [apply foo_bar_disjoint |].
  exact (redefine_many_disjoint_order module_store draft3_type_checker
           {| _type_checkers := draft3_definitions |}
           {[ "foo" := fn_user 0 ]} {[ "bar" := fn_user 1 ]}
           draft3_lookup foo_bar_disjoint).
Defined.

Lemma redefine_then_remove_witness :
  module_store !! draft3_type_checker
  = Some (TypeCheckerObject {| _type_checkers := draft3_definitions |})
  ∧ ∃ r1 s1 r2 s2,
      redefine draft3_type_checker "foo" (fn_user 0) module_store
      = (Ok r1, s1)
      ∧ remove r1 "foo" s1 = (Ok r2, s2)
      ∧ s2 !! r2
        = Some (TypeCheckerObject
                  {| _type_checkers := delete "foo" draft3_definitions |})
      ∧ (draft3_definitions !! "foo" = None →
         s2 !! r2
         = Some (TypeCheckerObject {| _type_checkers := draft3_definitions |})).
Proof.
  split; [apply draft3_lookup |].
  exact (redefine_then_remove module_store draft3_type_checker
           {| _type_checkers := draft3_definitions |} "foo" (fn_user 0)
           draft3_lookup).
Defined.

Lemma remove_then_redefine_restores_witness :
  module_store !! draft3_type_checker
  = Some (TypeCheckerObject {| _type_checkers := draft3_definitions |})
  ∧ draft3_definitions !! "any" = Some fn_is_any
  ∧ ∃ r1 s1 r2 s2,
      remove draft3_type_checker "any" module_store = (Ok r1, s1)
      ∧ redefine r1 "any" fn_is_any s1 = (Ok r2, s2)
      ∧ r2 ≠ draft3_type_checker
      ∧ s2 !! r2
        = Some (TypeCheckerObject {| _type_checkers := draft3_definitions |}).
Proof.
  split; [apply draft3_lookup |]. split; [reflexivity |].
  exact (remove_then_redefine_restores module_store draft3_type_checker
           {| _type_checkers := draft3_definitions |} "any" fn_is_any
           draft3_lookup eq_refl).
Defined.

Lemma is_type_propagates_predicate_error_witness :
  odd_store !! 0
  = Some (TypeCheckerObject {| _type_checkers := {[ "odd" := fn_user 1 ]} |})
  ∧ ({[ "odd" := fn_user 1 ]} : gmap string callable) !! "odd"
    = Some (fn_user 1)
  ∧ apply_callable (env := raising_env) (fn_user 1)
      {| _type_checkers := {[ "odd" := fn_user 1 ]} |} (VInt 3)
    = Raise (KeyError "inner")
  ∧ outcome (is_type (env := raising_env) 0 (VInt 3) "odd") odd_store
    = Raise (KeyError "inner")
  ∧ final (is_type (env := raising_env) 0 (VInt 3) "odd") odd_store
    = odd_store.
Proof.
  split; [apply odd_lookup |]. split; [reflexivity |]. split; [reflexivity |].
  exact (is_type_propagates_predicate_error (env := raising_env) odd_store 0
           {| _type_checkers := {[ "odd" := fn_user 1 ]} |} (VInt 3) "odd"
           (fn_user 1) (KeyError "inner") odd_lookup eq_refl eq_refl).
Defined.

Lemma integer_three_on_draft3 :
  outcome (is_type (env := constant_env) draft3_type_checker (VInt 3)
             "integer") module_store
  = Ok true.
Proof. by vm_compute. Qed.

Lemma integer_implies_number_witness :
  module_store !! draft3_type_checker
  = Some (TypeCheckerObject {| _type_checkers := draft3_definitions |})
  ∧ draft3_definitions !! "integer" = Some fn_is_integer
  ∧ draft3_definitions !! "number" = Some fn_is_number
  ∧ (∀ v,
       isinstance_any v (int_types (Environment := constant_env)) = true →
       isinstance v c_Number = true)
  ∧ outcome (is_type (env := constant_env) draft3_type_checker (VInt 3)
               "integer") module_store
    = Ok true
  ∧ outcome (is_type (env := constant_env) draft3_type_checker (VInt 3)
               "number") module_store
    = Ok true.
Proof.
  split; [apply draft3_lookup |]. split; [reflexivity |].
  split; [reflexivity |]. split; [apply constant_env_numeric |].
  split; [apply integer_three_on_draft3 |].
  exact (integer_implies_number (env := constant_env) module_store
           draft3_type_checker {| _type_checkers := draft3_definitions |}
           (VInt 3) draft3_lookup eq_refl eq_refl constant_env_numeric
           integer_three_on_draft3).
Defined.

Lemma float_is_number_not_integer_witness :
  module_store !! draft3_type_checker
  = Some (TypeCheckerObject {| _type_checkers := draft3_definitions |})
  ∧ draft3_definitions !! "integer" = Some fn_is_integer
  ∧ draft3_definitions !! "number" = Some fn_is_number
  ∧ isinstance_any (VFloat (S754_zero false))
      (int_types (Environment := constant_env))
    = false
  ∧ outcome (is_type (env := constant_env) draft3_type_checker
               (VFloat (S754_zero false)) "number") module_store
    = Ok true
  ∧ outcome (is_type (env := constant_env) draft3_type_checker
               (VFloat (S754_zero false)) "integer") module_store
    = Ok false.
Proof.
  split; [apply draft3_lookup |]. split; [reflexivity |].
  split; [reflexivity |]. split; [reflexivity |].
  exact (float_is_number_not_integer (env := constant_env) module_store
           draft3_type_checker {| _type_checkers := draft3_definitions |}
           (S754_zero false) draft3_lookup eq_refl eq_refl eq_refl).
Defined.

Lemma draft4_classification_witness :
  selects_exactly (int_types (Environment := constant_env)) c_int
  ∧ selects_exactly (str_types (Environment := constant_env)) c_str
  ∧ (outcome (is_type (env := constant_env) draft4_type_checker (VInt 3)
                "number") module_store
     = Ok true
     ↔ "number" ∈ draft4_types_of (VInt 3)).
Proof.
  split; [apply constant_env_int_types |].
  split; [apply constant_env_str_types |].
  exact (draft4_classification (env := constant_env) (VInt 3) "number"
           constant_env_int_types constant_env_str_types).
Defined.

Lemma draft3_classification_witness :
  selects_exactly (int_types (Environment := constant_env)) c_int
  ∧ selects_exactly (str_types (Environment := constant_env)) c_str
  ∧ (outcome (is_type (env := constant_env) draft3_type_checker
                (VTuple [VInt 1]) "any") module_store
     = Ok true
     ↔ "any" = "any" ∨ "any" ∈ draft4_types_of (VTuple [VInt 1])).
Proof.
  split; [apply constant_env_int_types |].
  split; [apply constant_env_str_types |].
  exact (draft3_classification (env := constant_env) (VTuple [VInt 1]) "any"
           constant_env_int_types constant_env_str_types).
Defined.

Lemma string_null_distinct : NoDup ["string"; "null"].
Proof. apply (bool_decide_unpack _). by vm_compute. Qed.

Lemma string_null_known x :
  x ∈ ["string"; "null"] → is_Some (draft3_definitions !! x).
Proof.
  intros Hx. repeat (apply elem_of_cons in Hx as [-> | Hx]; [by eexists |]).
  by apply elem_of_nil in Hx.
Qed.

Lemma remove_many_returns_witness :
  module_store !! draft3_type_checker
  = Some (TypeCheckerObject {| _type_checkers := draft3_definitions |})
  ∧ NoDup ["string"; "null"]
  ∧ (∀ x, x ∈ ["string"; "null"] → is_Some (draft3_definitions !! x))
  ∧ ∃ r2 derived,
      outcome (remove_many draft3_type_checker ["string"; "null"]) module_store
      = Ok r2
      ∧ module_store !! r2 = None
      ∧ final (remove_many draft3_type_checker ["string"; "null"]) module_store
        !! r2
        = Some (TypeCheckerObject derived)
      ∧ ∀ k, _type_checkers derived !! k
             = if decide (k ∈ ["string"; "null"]) then None
               else draft3_definitions !! k.
Proof.
  split; [apply draft3_lookup |]. split; [apply string_null_distinct |].
  split; [apply string_null_known |].
  exact (remove_many_returns module_store draft3_type_checker
           {| _type_checkers := draft3_definitions |} ["string"; "null"]
           draft3_lookup string_null_distinct string_null_known).
Defined.
